(** * Appointment chatbot: the rule-based extraction core

    A shallow embedding of [python-service/chatbot_service.py]
    (class [AppointmentChatbot]): the keyword gate and corroboration of
    [_extract_appointment_data], the attribute rules of
    [_parse_appointment_details], the date and time rules of
    [_parse_date_time] and the insertion done by [_create_appointment].

    Conventions of the model.
    - A Python [str] is a [string] whose characters stand for the code
      points 0..255; the keyword tables of the source are plain ASCII.
    - [datetime.now()] is one value [now], handed in by the caller.  The
      date of a [datetime] is kept as its proleptic Gregorian ordinal
      ([date.toordinal()]), the number [timedelta] arithmetic and
      [weekday()] work on.
    - Exceptions are values of [exn]; code that can raise lives in
      [result], code that logs or talks to the database threads a
      [world]. *)

From Stdlib Require Import ZArith List String Ascii Bool Lia.
Import ListNotations.
Local Open Scope string_scope.
Local Open Scope Z_scope.

(** ** Text: [str.lower] and the [in] operator *)

Module Text.

Definition code (c : ascii) : Z := Z.of_N (N_of_ascii c).

Definition chr (n : Z) : ascii := ascii_of_N (Z.to_N n).

(** [str.lower] on one code point below 256: the ASCII capitals and the
    Latin-1 capitals (0xC0..0xDE without the multiplication sign 0xD7)
    move up by 32, everything else stays. *)
Definition lower_char (c : ascii) : ascii :=
  let n := code c in
  if ((65 <=? n) && (n <=? 90))
     || ((192 <=? n) && (n <=? 222) && negb (n =? 215))
  then chr (n + 32) else c.

Fixpoint lower (s : string) : string :=
  match s with
  | EmptyString => EmptyString
  | String c s' => String (lower_char c) (lower s')
  end.

(** [needle in hay]: [needle] occurs in [hay] as a contiguous run. *)
Fixpoint contains (needle hay : string) : bool :=
  String.prefix needle hay ||
  match hay with
  | EmptyString => false
  | String _ hay' => contains needle hay'
  end.

(** [any(keyword in s for keyword in keywords)] *)
Definition any_in (keywords : list string) (s : string) : bool :=
  existsb (fun keyword => contains keyword s) keywords.

(** [ch in s] for a single character, as in [':' in match.group(0)]. *)
Fixpoint has_char (ch : ascii) (s : string) : bool :=
  match s with
  | EmptyString => false
  | String c s' => Ascii.eqb ch c || has_char ch s'
  end.

Fixpoint take (n : nat) (s : string) : string :=
  match n, s with
  | S n', String c s' => String c (take n' s')
  | _, _ => EmptyString
  end.

End Text.

(** ** The fragment of [re] used by the time patterns

    Backtracking matching with greedy quantifiers, written in
    continuation-passing style: a continuation receives the number of
    characters consumed so far, the rest of the subject and the groups
    captured on the path that led there.  Quantifiers apply to character
    classes only, as in the three patterns of the source, so every
    function is structural. *)

Module Re.

Import Text.

Inductive regex : Type :=
| Class (p : ascii -> bool)                         (* \d, \s *)
| Str (lit : string)                                (* literal text *)
| Seq (r1 r2 : regex)
| Alt (r1 r2 : regex)                               (* r1|r2 *)
| Opt (r : regex)                                   (* r? *)
| Repeat (p : ascii -> bool) (lo : nat) (hi : option nat)  (* c{lo,hi}, c* *)
| Group (n : nat) (r : regex).                      (* n-th ( ... ) *)

(** [\d] on code points below 256: the ASCII digits. *)
Definition digit (c : ascii) : bool :=
  let n := code c in (48 <=? n) && (n <=? 57).

(** [\s] of a [str] pattern on code points below 256: tab to carriage
    return, the four information separators, space, NEL and the
    no-break space. *)
Definition space (c : ascii) : bool :=
  let n := code c in
  ((9 <=? n) && (n <=? 13)) || ((28 <=? n) && (n <=? 32))
  || (n =? 133) || (n =? 160).

Definition captures : Type := nat -> option string.

Definition no_captures : captures := fun _ => None.

Definition capture (n : nat) (s : string) (c : captures) : captures :=
  fun m => if Nat.eqb m n then Some s else c m.

Definition cont (R : Type) : Type := nat -> string -> captures -> option R.

Definition or_else {R : Type} (a b : option R) : option R :=
  match a with Some x => Some x | None => b end.

Fixpoint drop (n : nat) (s : string) : string :=
  match n, s with
  | S n', String _ s' => drop n' s'
  | _, _ => s
  end.

Definition may_repeat (hi : option nat) : bool :=
  match hi with Some O => false | _ => true end.

Definition one_less (hi : option nat) : option nat :=
  match hi with Some n => Some (pred n) | None => None end.

(** Greedy repetition of a character class: take one more character
    first; stop here only when that path fails and [lo] is reached. *)
Fixpoint repeat_greedy {R : Type} (p : ascii -> bool) (lo : nat)
    (hi : option nat) (pos : nat) (s : string) (c : captures) (k : cont R)
    {struct s} : option R :=
  let stop := match lo with O => k pos s c | S _ => None end in
  match s with
  | String a s' =>
      if p a && may_repeat hi
      then or_else (repeat_greedy p (pred lo) (one_less hi) (S pos) s' c k) stop
      else stop
  | EmptyString => stop
  end.

Fixpoint run {R : Type} (r : regex) (pos : nat) (s : string) (c : captures)
    (k : cont R) {struct r} : option R :=
  match r with
  | Class p =>
      match s with
      | String a s' => if p a then k (S pos) s' c else None
      | EmptyString => None
      end
  | Str lit =>
      if String.prefix lit s
      then k (pos + String.length lit)%nat (drop (String.length lit) s) c
      else None
  | Seq r1 r2 => run r1 pos s c (fun pos' s' c' => run r2 pos' s' c' k)
  | Alt r1 r2 => or_else (run r1 pos s c k) (run r2 pos s c k)
  | Opt r' => or_else (run r' pos s c k) (k pos s c)
  | Repeat p lo hi => repeat_greedy p lo hi pos s c k
  | Group n r' =>
      run r' pos s c
        (fun pos' s' c' => k pos' s' (capture n (take (pos' - pos) s) c'))
  end.

(** Number of capturing groups, [len(match.groups())]. *)
Fixpoint ngroups (r : regex) : nat :=
  match r with
  | Class _ | Str _ | Repeat _ _ _ => O
  | Seq r1 r2 | Alt r1 r2 => (ngroups r1 + ngroups r2)%nat
  | Opt r' => ngroups r'
  | Group _ r' => S (ngroups r')
  end.

(** A match object: [group(0)], the numbered groups, their count. *)
Record match_object : Type := {
  whole : string;
  groups : captures;
  group_count : nat
}.

Definition match_here (r : regex) (s : string) : option match_object :=
  run r O s no_captures
    (fun pos _ c =>
       Some {| whole := take pos s; groups := c; group_count := ngroups r |}).

(** [re.search]: the match at the leftmost position that has one. *)
Fixpoint search (r : regex) (s : string) : option match_object :=
  or_else (match_here r s)
    match s with
    | String _ s' => search r s'
    | EmptyString => None
    end.

End Re.

(** ** Exceptions *)

Inductive exn : Type :=
| ValueError | OverflowError | TypeError | IndexError | OperationalError
| IntegrityError | DataError.

Inductive result (A : Type) : Type :=
| Ok (a : A)
| Raise (e : exn).

Arguments Ok {A} a.
Arguments Raise {A} e.

Definition bind {A B : Type} (r : result A) (f : A -> result B) : result B :=
  match r with
  | Ok a => f a
  | Raise e => Raise e
  end.

Declare Scope py_scope.
Delimit Scope py_scope with py.
Notation "x <- e ;; k" := (bind e (fun x => k))
  (at level 61, e at next level, right associativity) : py_scope.
Notation "' pat <- e ;; k" := (bind e (fun x => match x with pat => k end))
  (at level 61, pat pattern, e at next level, right associativity) : py_scope.
Local Open Scope py_scope.

(** ** The part of [datetime] the parser uses *)

Module Datetime.

Record datetime : Type := {
  ordinal : Z;          (* date.toordinal(): 1 is 0001-01-01 *)
  hour : Z;
  minute : Z;
  second : Z;
  microsecond : Z
}.

(** [date.max.toordinal()], the last day of year 9999. *)
Definition MAXORDINAL : Z := 3652059.

Definition is_leap (year : Z) : bool :=
  (year mod 4 =? 0) && (negb (year mod 100 =? 0) || (year mod 400 =? 0)).

Definition days_before_year (year : Z) : Z :=
  let y := year - 1 in y * 365 + y / 4 - y / 100 + y / 400.

Definition DAYS_IN_MONTH : list Z :=
  [31; 28; 31; 30; 31; 30; 31; 31; 30; 31; 30; 31].

Definition DAYS_BEFORE_MONTH : list Z :=
  [0; 31; 59; 90; 120; 151; 181; 212; 243; 273; 304; 334].

Definition month_entry (table : list Z) (month : Z) : Z :=
  nth (Z.to_nat (month - 1)) table 0.

Definition days_before_month (year month : Z) : Z :=
  month_entry DAYS_BEFORE_MONTH month
  + (if (2 <? month) && is_leap year then 1 else 0).

Definition ymd2ord (year month day : Z) : Z :=
  days_before_year year + days_before_month year month + day.

(** Days in 400, 100 and 4 years. *)
Definition DI400Y : Z := 146097.
Definition DI100Y : Z := 36524.
Definition DI4Y : Z := 1461.

(** Ordinal to (year, month, day), the library's [_ord2ymd]. *)
Definition ord2ymd (n : Z) : Z * Z * Z :=
  let n := n - 1 in
  let n400 := n / DI400Y in
  let n := n mod DI400Y in
  let n100 := n / DI100Y in
  let n := n mod DI100Y in
  let n4 := n / DI4Y in
  let n := n mod DI4Y in
  let n1 := n / 365 in
  let n := n mod 365 in
  let year := n400 * 400 + 1 + n100 * 100 + n4 * 4 + n1 in
  if (n1 =? 4) || (n100 =? 4) then (year - 1, 12, 31)
  else
    let leapyear := (n1 =? 3) && (negb (n4 =? 24) || (n100 =? 3)) in
    let month := Z.shiftr (n + 50) 5 in
    let preceding :=
      month_entry DAYS_BEFORE_MONTH month
      + (if (2 <? month) && leapyear then 1 else 0) in
    if n <? preceding then
      let month := month - 1 in
      let preceding :=
        preceding
        - (month_entry DAYS_IN_MONTH month
           + (if (month =? 2) && leapyear then 1 else 0)) in
      (year, month, n - preceding + 1)
    else (year, month, n - preceding + 1).

(** [datetime(year, month, day, hour, minute, second)] *)
Definition make (year month day h m s : Z) : datetime :=
  {| ordinal := ymd2ord year month day;
     hour := h; minute := m; second := s; microsecond := 0 |}.

(** [d + timedelta(days=k)]: the clock fields stay; a date outside
    0001-01-01 .. 9999-12-31 raises [OverflowError]. *)
Definition add_days (d : datetime) (k : Z) : result datetime :=
  let o := ordinal d + k in
  if (1 <=? o) && (o <=? MAXORDINAL)
  then Ok {| ordinal := o; hour := hour d; minute := minute d;
             second := second d; microsecond := microsecond d |}
  else Raise OverflowError.

Definition in_range (lo hi x : Z) : bool := (lo <=? x) && (x <=? hi).

(** [d.replace(hour=h, minute=m, second=s, microsecond=us)]: the
    constructor checks every field and raises [ValueError]. *)
Definition replace (d : datetime) (h m s us : Z) : result datetime :=
  if in_range 0 23 h && in_range 0 59 m && in_range 0 59 s
     && in_range 0 999999 us
  then Ok {| ordinal := ordinal d; hour := h; minute := m;
             second := s; microsecond := us |}
  else Raise ValueError.

(** [d.replace(hour=h, minute=m)] *)
Definition replace_hm (d : datetime) (h m : Z) : result datetime :=
  replace d h m (second d) (microsecond d).

(** [d.weekday()]: Monday is 0. *)
Definition weekday (d : datetime) : Z := (ordinal d + 6) mod 7.

Definition digit_char (n : Z) : ascii := Text.chr (48 + n mod 10).

(** ["%0*d"] for a number that fits the width. *)
Fixpoint zero_padded (width : nat) (n : Z) : string :=
  match width with
  | O => EmptyString
  | S w => zero_padded w (n / 10) ++ String (digit_char n) EmptyString
  end.

(** [d.isoformat()]: the fraction is printed only when it is not zero. *)
Definition isoformat (d : datetime) : string :=
  let '(y, mo, da) := ord2ymd (ordinal d) in
  zero_padded 4 y ++ "-" ++ zero_padded 2 mo ++ "-" ++ zero_padded 2 da
  ++ "T" ++ zero_padded 2 (hour d) ++ ":" ++ zero_padded 2 (minute d)
  ++ ":" ++ zero_padded 2 (second d)
  ++ (if microsecond d =? 0 then "" else "." ++ zero_padded 6 (microsecond d)).

(** Order of naive datetimes: by date, then by the clock fields. *)
Definition then_cmp (c d : comparison) : comparison :=
  match c with Eq => d | _ => c end.

Definition compare (a b : datetime) : comparison :=
  then_cmp (ordinal a ?= ordinal b)
    (then_cmp (hour a ?= hour b)
       (then_cmp (minute a ?= minute b)
          (then_cmp (second a ?= second b)
             (microsecond a ?= microsecond b)))).

(** [a <= b] and [a < b] *)
Definition le (a b : datetime) : Prop := compare a b <> Gt.
Definition lt (a b : datetime) : Prop := compare a b = Lt.

(** The fields of a value the library can hold. *)
Definition valid (d : datetime) : Prop :=
  1 <= ordinal d <= MAXORDINAL /\ 0 <= hour d <= 23 /\ 0 <= minute d <= 59
  /\ 0 <= second d <= 59 /\ 0 <= microsecond d <= 999999.

(** [int(g)] for a captured group: a run of ASCII digits gives its
    number; [None] is a [TypeError]. *)
Fixpoint int_digits (acc : Z) (s : string) : result Z :=
  match s with
  | EmptyString => Ok acc
  | String c s' =>
      if Re.digit c then int_digits (acc * 10 + (Text.code c - 48)) s'
      else Raise ValueError
  end.

Definition int (g : option string) : result Z :=
  match g with
  | None => Raise TypeError
  | Some EmptyString => Raise ValueError
  | Some s => int_digits 0 s
  end.

End Datetime.

(** ** The chatbot service *)

Module Chatbot.

Import Text Re Datetime.

(** The dictionary built by [_parse_appointment_details]; ['id'] is
    added by [_extract_appointment_data] once the row exists. *)
Record appointment_data : Type := {
  title : string;
  description : string;
  appointment_type : string;
  duration_minutes : Z;
  location : option string;
  notes : option string;
  appointment_date : string;
  id : option Z
}.

(** A row of the [appointments] table as the INSERT writes it. *)
Record appointment_row : Type := {
  row_id : Z;
  row_user_id : Z;
  row_title : string;
  row_description : string;
  row_appointment_date : string;
  row_duration_minutes : Z;
  row_appointment_type : string;
  row_location : option string;
  row_notes : option string;
  row_status : string
}.

Inductive log_record : Type :=
| LogError (what : string) (e : exn)
| LogInfo (what : string) (appointment_id user_id : Z).

(** What the service can touch outside itself: the database and the
    log.  Of the database the model keeps whether a connection can be
    made, the exception with which the server answers an INSERT or its
    commit once connected (a violated constraint, a value out of range,
    a lost connection), if any, the id the sequence hands out next and
    the table. *)
Record world : Type := {
  db_up : bool;
  insert_error : option exn;
  next_id : Z;
  appointments : list appointment_row;
  log : list log_record
}.

Definition log_append (r : log_record) (w : world) : world :=
  {| db_up := db_up w; insert_error := insert_error w; next_id := next_id w;
     appointments := appointments w; log := log w ++ [r] |}.

Definition appointment_keywords : list string :=
  ["schedule"; "book"; "appointment"; "meeting"; "consultation";
   "checkup"; "visit"; "session"; "reservation"; "make an appointment"].

Definition confirmation_keywords : list string :=
  ["scheduled"; "booked"; "confirmed"; "appointment created";
   "i've scheduled"; "your appointment is"; "appointment has been";
   "i'll schedule"; "let me schedule"; "i can schedule"].

Definition detail_keywords : list string :=
  ["tomorrow"; "today"; "next week"; "monday"; "tuesday"; "wednesday";
   "thursday"; "friday"; "saturday"; "sunday"; "am"; "pm"; "morning";
   "afternoon"; "evening"; "medical"; "consultation"; "checkup"].

Definition days_of_week : list (string * Z) :=
  [("monday", 0); ("tuesday", 1); ("wednesday", 2); ("thursday", 3);
   ("friday", 4); ("saturday", 5); ("sunday", 6)].

Definition colon : regex := Str ":".
Definition am_pm : regex := Alt (Str "am") (Str "pm").
Definition hour_digits : regex := Repeat digit 1 (Some 2%nat).
Definition spaces : regex := Repeat space 0 None.

(** [(\d{1,2}):(\d{2})\s*(am|pm)?], [(\d{1,2})\s*(am|pm)] and
    [(\d{1,2})\s*o\'?clock] *)
Definition time_patterns : list regex :=
  [ Seq (Group 1 hour_digits)
      (Seq colon
         (Seq (Group 2 (Repeat digit 2 (Some 2%nat)))
            (Seq spaces (Opt (Group 3 am_pm)))));
    Seq (Group 1 hour_digits) (Seq spaces (Group 2 am_pm));
    Seq (Group 1 hour_digits)
      (Seq spaces (Seq (Str "o") (Seq (Opt (Str "'")) (Str "clock")))) ].

(** [match.group(n)]: a group the pattern does not have is an
    [IndexError]; one that took no part in the match is [None]. *)
Definition group (m : match_object) (n : nat) : result (option string) :=
  if Nat.leb n (group_count m)
  then Ok (match n with O => Some (whole m) | S _ => groups m n end)
  else Raise IndexError.

(** Truth value of [ampm]: [None] and the empty string are false. *)
Definition truthy (g : option string) : bool :=
  match g with
  | None | Some EmptyString => false
  | Some _ => true
  end.

Definition lower_of (g : option string) : string :=
  match g with Some s => lower s | None => EmptyString end.

(** Lines 213-241: the default, ["today"], ["tomorrow"], then the loop
    over [days_of_week], which runs whatever the first test chose. *)
Definition resolve_base_date (now : datetime) (message_lower : string)
  : result datetime :=
  base_date <- add_days now 1 ;;
  base_date <- replace base_date 10 0 0 0 ;;
  base_date <-
    (if contains "today" message_lower then replace now 10 0 0 0
     else if contains "tomorrow" message_lower then
       base_date <- add_days now 1 ;;
       replace base_date 10 0 0 0
     else Ok base_date) ;;
  match find (fun entry => contains (fst entry) message_lower) days_of_week with
  | Some (_, day_num) =>
      let days_ahead := day_num - weekday now in
      let days_ahead := if days_ahead <=? 0 then days_ahead + 7 else days_ahead in
      base_date <- add_days now days_ahead ;;
      replace base_date 10 0 0 0
  | None => Ok base_date
  end.

(** The body run for the first pattern that matches (lines 253-269). *)
Definition apply_match (m : match_object) (base_date : datetime)
  : result datetime :=
  '(hour, minute, ampm) <-
    (if has_char ":" (whole m)            (* ':' in match.group(0) *)
     then
       g1 <- group m 1 ;; hour <- int g1 ;;
       g2 <- group m 2 ;; minute <- int g2 ;;
       ampm <- (if Nat.ltb 2 (group_count m) then group m 3 else Ok None) ;;
       Ok (hour, minute, ampm)
     else
       g1 <- group m 1 ;; hour <- int g1 ;;
       ampm <- (if Nat.ltb 1 (group_count m) then group m 2 else Ok None) ;;
       Ok (hour, 0, ampm)) ;;
  let hour :=
    if truthy ampm then
      if String.eqb (lower_of ampm) "pm" && negb (hour =? 12) then hour + 12
      else if String.eqb (lower_of ampm) "am" && (hour =? 12) then 0
      else hour
    else hour in
  replace_hm base_date hour minute.

(** Lines 250-270: the patterns are tried in order over the whole
    message; the first that matches anywhere decides and ends the loop. *)
Fixpoint apply_time_patterns (patterns : list regex) (message_lower : string)
    (base_date : datetime) : result datetime :=
  match patterns with
  | [] => Ok base_date
  | pattern :: rest =>
      match search pattern message_lower with
      | Some m => apply_match m base_date
      | None => apply_time_patterns rest message_lower base_date
      end
  end.

(** Lines 272-278: the time descriptions, applied last. *)
Definition apply_time_descriptions (message_lower : string)
    (base_date : datetime) : result datetime :=
  if contains "morning" message_lower then replace_hm base_date 9 0
  else if contains "afternoon" message_lower then replace_hm base_date 14 0
  else if contains "evening" message_lower then replace_hm base_date 18 0
  else Ok base_date.

(** [_parse_date_time] up to its last line: the [datetime] it formats. *)
Definition parse_date_time_value (now : datetime) (user_message : string)
  : result datetime :=
  let message_lower := lower user_message in
  base_date <- resolve_base_date now message_lower ;;
  base_date <- apply_time_patterns time_patterns message_lower base_date ;;
  apply_time_descriptions message_lower base_date.

Definition _parse_date_time (now : datetime) (user_message : string)
  : result string :=
  base_date <- parse_date_time_value now user_message ;;
  Ok (isoformat base_date).

(** The try block of [_parse_appointment_details]. *)
Definition parse_appointment_details_body (now : datetime)
    (user_message bot_response : string) : result appointment_data :=
  let message := lower user_message in
  let '(type, label) :=
    if any_in ["medical"; "doctor"; "checkup"; "health"] message
    then ("medical", "Medical Appointment")
    else if any_in ["consultation"; "consult"] message
    then ("consultation", "Consultation")
    else if any_in ["follow"; "follow-up"] message
    then ("follow-up", "Follow-up Appointment")
    else ("general", "Appointment") in
  date <- _parse_date_time now user_message ;;
  let duration :=
    if contains "30 minutes" message || contains "half hour" message then 30
    else if contains "45 minutes" message then 45
    else if contains "90 minutes" message || contains "1.5 hours" message then 90
    else if contains "2 hours" message || contains "120 minutes" message then 120
    else 60 in
  Ok {| title := label; description := user_message;
        appointment_type := type; duration_minutes := duration;
        location := None; notes := None;
        appointment_date := date; id := None |}.

(** [_parse_appointment_details]: any exception is logged and turned
    into [None]. *)
Definition _parse_appointment_details (now : datetime)
    (user_message bot_response : string) (w : world)
  : option appointment_data * world :=
  match parse_appointment_details_body now user_message bot_response with
  | Ok appointment => (Some appointment, w)
  | Raise e =>
      (None, log_append (LogError "Error parsing appointment details" e) w)
  end.

Definition row_of (appointment_id user_id : Z) (a : appointment_data)
  : appointment_row :=
  {| row_id := appointment_id; row_user_id := user_id;
     row_title := title a; row_description := description a;
     row_appointment_date := appointment_date a;
     row_duration_minutes := duration_minutes a;
     row_appointment_type := appointment_type a;
     row_location := location a; row_notes := notes a;
     row_status := "pending" |}.

(** The driver refuses a text parameter that holds a NUL character:
    [execute] raises [ValueError] before anything is sent. *)
Definition has_nul (s : string) : bool := has_char Ascii.zero s.

Definition has_nul_parameter (a : appointment_data) : bool :=
  has_nul (title a) || has_nul (description a)
  || has_nul (appointment_date a) || has_nul (appointment_type a)
  || match location a with Some s => has_nul s | None => false end
  || match notes a with Some s => has_nul s | None => false end.

(** What the try block of [_create_appointment] raises, if anything, in
    the order of its statements: [connect] when no connection can be
    made, [execute] for a NUL in a text parameter, then whatever error
    the server answers the INSERT or the commit with. *)
Definition insert_failure (a : appointment_data) (w : world) : option exn :=
  if negb (db_up w) then Some OperationalError
  else if has_nul_parameter a then Some ValueError
  else insert_error w.

(** [_create_appointment]: connect, INSERT ... RETURNING id, commit.
    Any exception on the way is logged and [None] returned; the row is
    there only when all three went through. *)
Definition _create_appointment (user_id : Z) (a : appointment_data)
    (w : world) : option Z * world :=
  match insert_failure a w with
  | Some e => (None, log_append (LogError "Error creating appointment" e) w)
  | None =>
      let appointment_id := next_id w in
      (Some appointment_id,
       {| db_up := db_up w; insert_error := insert_error w;
          next_id := appointment_id + 1;
          appointments := appointments w ++ [row_of appointment_id user_id a];
          log := log w
                 ++ [LogInfo "Created appointment" appointment_id user_id] |})
  end.

(** The three tests of [_extract_appointment_data]. *)
Definition wants_to_schedule (user_message : string) : bool :=
  any_in appointment_keywords (lower user_message).

Definition has_details (user_message : string) : bool :=
  any_in detail_keywords (lower user_message).

Definition bot_confirms (bot_response : string) : bool :=
  any_in confirmation_keywords (lower bot_response).

Definition with_id (appointment_id : Z) (a : appointment_data)
  : appointment_data :=
  {| title := title a; description := description a;
     appointment_type := appointment_type a;
     duration_minutes := duration_minutes a;
     location := location a; notes := notes a;
     appointment_date := appointment_date a; id := Some appointment_id |}.

(** [_extract_appointment_data].  The calls inside its try block catch
    their own exceptions, so its own handler is never entered. *)
Definition _extract_appointment_data (now : datetime)
    (user_message bot_response : string) (user_id : Z) (w : world)
  : option appointment_data * world :=
  if negb (wants_to_schedule user_message) then (None, w)
  else if has_details user_message || bot_confirms bot_response then
    let '(parsed, w) :=
      _parse_appointment_details now user_message bot_response w in
    match parsed with
    | Some appointment =>
        let '(created, w) := _create_appointment user_id appointment w in
        match created with
        | Some appointment_id =>
            if appointment_id =? 0 then (None, w)     (* `if appointment_id:` *)
            else (Some (with_id appointment_id appointment), w)
        | None => (None, w)
        end
    | None => (None, w)
    end
  else (None, w).

(** The decision the specification calls [shouldCreate]: the condition
    under which [_extract_appointment_data] goes on to parse details. *)
Definition should_create (user_message bot_response : string) : bool :=
  wants_to_schedule user_message
  && (has_details user_message || bot_confirms bot_response).

End Chatbot.

(** ** One turn of the conversation: [process_message] *)

Module Conversation.

Import Text Datetime Chatbot.

(** The values found in the dictionaries the method returns. *)
#[warnings="-register-all"]
Inductive value : Type :=
| VNone
| VBool (b : bool)
| VInt (n : Z)
| VStr (s : string)
| VDict (items : list (string * value)).

Definition dict : Type := list (string * value).

(** [key in d], [d.get(key)] and [d[key] = v] on a dictionary kept in
    insertion order. *)
Fixpoint lookup (key : string) (d : dict) : option value :=
  match d with
  | [] => None
  | (k, v) :: d' => if String.eqb key k then Some v else lookup key d'
  end.

Definition get (key : string) (d : dict) : value :=
  match lookup key d with Some v => v | None => VNone end.

Fixpoint set (key : string) (v : value) (d : dict) : dict :=
  match d with
  | [] => [(key, v)]
  | (k, v') :: d' =>
      if String.eqb key k then (k, v) :: d' else (k, v') :: set key v d'
  end.

Definition of_optional_string (o : option string) : value :=
  match o with Some s => VStr s | None => VNone end.

(** The draft as the dictionary it is in the source: the six keys of
    the literal, then ['appointment_date'], then ['id'] once set. *)
Definition appointment_dict (a : appointment_data) : dict :=
  ([("title", VStr (title a));
    ("description", VStr (description a));
    ("appointment_type", VStr (appointment_type a));
    ("duration_minutes", VInt (duration_minutes a));
    ("location", of_optional_string (location a));
    ("notes", of_optional_string (notes a));
    ("appointment_date", VStr (appointment_date a))]
   ++ match id a with Some i => [("id", VInt i)] | None => [] end)%list.

(** A stored turn, with the columns [get_conversation_history] selects
    and the method reads. *)
Record turn : Type := { message_type : string; content : string }.

Inductive chat_message : Type :=
| HumanMessage (text : string)
| AIMessage (text : string).

(** What [conversation_chain.invoke] does is outside the source: it
    answers with a text or raises an exception [e] whose [str(e)] is
    [text]. *)
Inductive llm_outcome : Type :=
| Reply (response_text : string)
| Failure (e : exn) (text : string).

Definition language_model : Type := list chat_message -> string -> llm_outcome.

Definition to_chat_history (conversation_history : list turn)
  : list chat_message :=
  flat_map
    (fun msg =>
       if String.eqb (message_type msg) "user" then [HumanMessage (content msg)]
       else if String.eqb (message_type msg) "bot" then [AIMessage (content msg)]
       else [])
    conversation_history.

Definition len (s : string) : value := VInt (Z.of_nat (String.length s)).

(** [process_message].  [now] is the clock read by the date parser,
    [stamp] the clock read for the metadata.  The system message with
    the user's name and e-mail is built from [user_info] and then not
    used; the chain is invoked with the history and the message only. *)
Definition process_message (llm : language_model) (now stamp : datetime)
    (message : string) (user_id : Z) (user_info : dict)
    (conversation_history : list turn) (w : world) : dict * world :=
  let chat_history := to_chat_history conversation_history in
  match llm chat_history message with
  | Reply response_text =>
      let '(appointment, w) :=
        _extract_appointment_data now message response_text user_id w in
      let metadata :=
        [("user_id", VInt user_id);
         ("timestamp", VStr (isoformat stamp));
         ("message_length", len message);
         ("response_length", len response_text)] in
      let metadata :=
        match appointment with
        | Some a =>
            let metadata :=
              set "appointment_data" (VDict (appointment_dict a)) metadata in
            let metadata := set "appointment_created" (VBool true) metadata in
            set "appointment_id" (get "id" (appointment_dict a)) metadata
        | None => set "appointment_created" (VBool false) metadata
        end in
      ([("message", VStr response_text); ("metadata", VDict metadata)], w)
  | Failure e text =>
      let w := log_append (LogError "Error processing message" e) w in
      let w := log_append (LogError "Full traceback" e) w in
      ([("message",
         VStr ("I apologize, but I'm experiencing some technical difficulties. Error: "
               ++ text));
        ("metadata",
         VDict [("error", VStr "processing_error");
                ("timestamp", VStr (isoformat stamp));
                ("error_details", VStr text)])],
       w)
  end.

End Conversation.

Import Text Re Datetime Chatbot Conversation.

(** Fixtures used by the examples: Monday 2024-01-01 at midnight and at
    15:00, Wednesday 2024-01-03, and a reachable database that accepts
    inserts, with an empty table. *)
Definition monday_midnight : datetime := make 2024 1 1 0 0 0.
Definition monday_afternoon : datetime := make 2024 1 1 15 0 0.
Definition wednesday_midnight : datetime := make 2024 1 3 0 0 0.
Definition empty_db : world :=
  {| db_up := true; insert_error := None; next_id := 1;
     appointments := []; log := [] |}.

(** Vocabulary of the statements. *)

(** 10:00:00 on the day with ordinal [o]. *)
Definition at_ten (o : Z) : datetime :=
  {| ordinal := o; hour := 10; minute := 0; second := 0; microsecond := 0 |}.

(** [days_ahead] of the weekday loop, after its adjustment. *)
Definition days_until (now : datetime) (day_num : Z) : Z :=
  let days_ahead := day_num - weekday now in
  if days_ahead <=? 0 then days_ahead + 7 else days_ahead.

(** [name] is the weekday the loop stops at: the message contains it
    and none of the names listed before it. *)
Definition first_weekday (message_lower name : string) (day_num : Z) : Prop :=
  In (name, day_num) days_of_week
  /\ contains name message_lower = true
  /\ forall name' day_num', In (name', day_num') days_of_week ->
                            day_num' < day_num ->
                            contains name' message_lower = false.

Definition no_weekday (message_lower : string) : Prop :=
  forall name day_num, In (name, day_num) days_of_week ->
                       contains name message_lower = false.

(** [keyword] is the time description whose branch is taken, [h] its
    hour. *)
Definition first_time_keyword (message_lower keyword : string) (h : Z) : Prop :=
  (keyword = "morning" /\ h = 9 /\ contains "morning" message_lower = true)
  \/ (keyword = "afternoon" /\ h = 14
      /\ contains "morning" message_lower = false
      /\ contains "afternoon" message_lower = true)
  \/ (keyword = "evening" /\ h = 18
      /\ contains "morning" message_lower = false
      /\ contains "afternoon" message_lower = false
      /\ contains "evening" message_lower = true).

(** No character of the text is a digit. *)
Fixpoint digit_free (s : string) : bool :=
  match s with
  | EmptyString => true
  | String c s' => negb (digit c) && digit_free s'
  end.

(** Every character of the text is in the class [p]. *)
Fixpoint all_chars (p : ascii -> bool) (s : string) : bool :=
  match s with
  | EmptyString => true
  | String c s' => p c && all_chars p s'
  end.

(** The hour the conversion to 24-hour form gives (lines 263-267). *)
Definition to_24_hour (h : Z) (ampm : string) : Z :=
  if String.eqb ampm "pm" && negb (h =? 12) then h + 12
  else if String.eqb ampm "am" && (h =? 12) then 0
  else h.

(** The text does not start with a character of the class [p]. *)
Definition not_starting_with (p : ascii -> bool) (s : string) : bool :=
  match s with
  | EmptyString => true
  | String c _ => negb (p c)
  end.

(** The text has no colon; it has neither "am" nor "pm". *)
Definition colon_free (s : string) : Prop := has_char ":" s = false.

Definition am_pm_free (s : string) : Prop :=
  contains "am" s = false /\ contains "pm" s = false.

(** The text has none of the three time descriptions. *)
Definition no_time_description (s : string) : Prop :=
  contains "morning" s = false /\ contains "afternoon" s = false
  /\ contains "evening" s = false.

(** [hs] is the text of an hour as the patterns accept it, one or two
    digits, and [h] its number; [ms] is a minute, two digits. *)
Definition hour_text (hs : string) (h : Z) : Prop :=
  all_chars digit hs = true
  /\ (String.length hs = 1%nat \/ String.length hs = 2%nat)
  /\ int (Some hs) = Ok h.

Definition minute_text (ms : string) (m : Z) : Prop :=
  all_chars digit ms = true /\ String.length ms = 2%nat
  /\ int (Some ms) = Ok m.

(** The text does not end with a character of the class [p]. *)
Fixpoint not_ending_with (p : ascii -> bool) (s : string) : bool :=
  match s with
  | EmptyString => true
  | String c EmptyString => negb (p c)
  | String _ s' => not_ending_with p s'
  end.

(** * Properties *)

(** ** The model on sample inputs *)

Example lower_mixed_case : lower "2:30 PM, Monday" = "2:30 pm, monday".
Proof. reflexivity. Qed.

Example contains_inside_word : contains "book" "facebook" = true.
Proof. reflexivity. Qed.

Example contains_needs_a_run : contains "book" "bo ok" = false.
Proof. reflexivity. Qed.

Example ordinal_of_new_year_2024 :
  ymd2ord 2024 1 1 = 738886 /\ weekday monday_midnight = 0.
Proof. split; reflexivity. Qed.

Example ord2ymd_samples :
  ord2ymd 1 = (1, 1, 1)
  /\ ord2ymd (ymd2ord 2024 2 29) = (2024, 2, 29)
  /\ ord2ymd (ymd2ord 2023 12 31) = (2023, 12, 31)
  /\ ord2ymd (ymd2ord 1900 3 1) = (1900, 3, 1)
  /\ ord2ymd MAXORDINAL = (9999, 12, 31).
Proof. repeat split; reflexivity. Qed.

(** The leftmost position wins, then the longest run of digits there. *)
Example search_colon_pattern :
  option_map (fun m => (whole m, groups m 1%nat, groups m 2%nat, groups m 3%nat))
    (search (nth 0 time_patterns (Str "")) "at 123:456pm, or 7:05 pm")
  = Some ("23:45", Some "23", Some "45", None).
Proof. vm_compute. reflexivity. Qed.

Example search_am_pm_pattern :
  option_map (fun m => (whole m, groups m 1%nat, groups m 2%nat))
    (search (nth 1 time_patterns (Str "")) "room 12, at 3  pm")
  = Some ("3  pm", Some "3", Some "pm").
Proof. vm_compute. reflexivity. Qed.

Example search_oclock_pattern :
  option_map (fun m => (whole m, groups m 1%nat))
    (search (nth 2 time_patterns (Str "")) "around 11 oclock")
  = Some ("11 oclock", Some "11").
Proof. vm_compute. reflexivity. Qed.

(** The formats named in the system prompt, on Monday 2024-01-01. *)
Example prompt_formats :
  _parse_date_time monday_midnight "tomorrow at 2 PM" = Ok "2024-01-02T14:00:00"
  /\ _parse_date_time monday_midnight "Monday morning" = Ok "2024-01-08T09:00:00"
  /\ _parse_date_time monday_midnight "next Friday at 3:30 PM"
     = Ok "2024-01-05T15:30:00"
  /\ _parse_date_time monday_midnight "at 12am" = Ok "2024-01-02T00:00:00"
  /\ _parse_date_time monday_midnight "5 o'clock" = Ok "2024-01-02T05:00:00".
Proof. repeat split; vm_compute; reflexivity. Qed.

(** ** The [in] operator and [lower] *)

Section TextFacts.

Lemma prefix_append (k s : string) : String.prefix k (k ++ s) = true.
Proof.
  induction k as [|a k IH]; simpl.
  - now destruct s.
  - destruct (ascii_dec a a) as [_|N]; [exact IH | now elim N].
Qed.

Lemma prefix_split (k s : string) :
  String.prefix k s = true -> exists post, s = k ++ post.
Proof.
  revert s; induction k as [|a k IH]; intros s H.
  - now exists s.
  - destruct s as [|b s]; simpl in H; [discriminate|].
    destruct (ascii_dec a b) as [->|_]; [|discriminate].
    destruct (IH _ H) as [post ->]. now exists post.
Qed.

Lemma contains_prefix (k s : string) :
  String.prefix k s = true -> contains k s = true.
Proof. intros H. destruct s; cbn [contains]; rewrite H; reflexivity. Qed.

Lemma contains_append (k pre post : string) :
  contains k (pre ++ k ++ post) = true.
Proof.
  induction pre as [|a pre IH].
  - cbn [append]. apply contains_prefix, prefix_append.
  - cbn [append contains]. rewrite IH. apply orb_true_r.
Qed.

Lemma contains_split (k s : string) :
  contains k s = true -> exists pre post, s = pre ++ k ++ post.
Proof.
  induction s as [|a s IH]; cbn [contains]; intros H.
  - rewrite orb_false_r in H. destruct (prefix_split _ _ H) as [post E].
    now exists EmptyString, post.
  - apply orb_true_iff in H as [H|H].
    + destruct (prefix_split _ _ H) as [post E]. now exists EmptyString, post.
    + destruct (IH H) as (pre & post & ->). now exists (String a pre), post.
Qed.

(** [k in s] holds exactly when [s] is some text, then [k], then some
    text: no condition on what surrounds [k]. *)
Lemma contains_iff (k s : string) :
  contains k s = true <-> exists pre post, s = pre ++ k ++ post.
Proof.
  split; [apply contains_split|].
  intros (pre & post & ->). apply contains_append.
Qed.

Lemma append_assoc (a b c : string) : (a ++ b) ++ c = a ++ b ++ c.
Proof. induction a as [|x a IH]; simpl; [reflexivity | now rewrite IH]. Qed.

Lemma lower_append (a b : string) : lower (a ++ b) = lower a ++ lower b.
Proof. induction a as [|c a IH]; simpl; [reflexivity | now rewrite IH]. Qed.

Lemma any_in_iff (keywords : list string) (s : string) :
  any_in keywords s = true <->
  exists keyword pre post, In keyword keywords /\ s = pre ++ keyword ++ post.
Proof.
  unfold any_in. rewrite existsb_exists. split.
  - intros (k & Hin & Hc). apply contains_iff in Hc as (pre & post & E).
    now exists k, pre, post.
  - intros (k & pre & post & Hin & E). exists k. split; [exact Hin|].
    apply contains_iff. now exists pre, post.
Qed.

Lemma any_in_none (keywords : list string) (s : string) :
  (forall keyword, In keyword keywords -> contains keyword s = false) ->
  any_in keywords s = false.
Proof.
  intros H. unfold any_in. apply not_true_is_false. intros E.
  apply existsb_exists in E as (k & Hin & Hc). rewrite (H k Hin) in Hc.
  discriminate.
Qed.

Lemma any_in_member (keyword : string) (keywords : list string) (s : string) :
  In keyword keywords -> contains keyword s = true -> any_in keywords s = true.
Proof. intros Hin Hc. unfold any_in. apply existsb_exists. now exists keyword. Qed.

End TextFacts.

(** ** The keyword gate and the corroboration tests *)

(** Decides [In keyword table -> P keyword] for a literal table by going
    through its entries. *)
Ltac each_keyword :=
  let k := fresh "keyword" in
  let H := fresh "Hin" in
  intros k H; simpl in H;
  repeat (destruct H as [<-|H]; [vm_compute; reflexivity|]);
  contradiction.

Lemma gate_closed_iff (user_message : string) :
  wants_to_schedule user_message = false <->
  forall keyword, In keyword appointment_keywords ->
                  contains keyword (lower user_message) = false.
Proof.
  unfold wants_to_schedule. split.
  - intros H k Hin. destruct (contains k (lower user_message)) eqn:E; [|reflexivity].
    rewrite (any_in_member k _ _ Hin E) in H. discriminate.
  - apply any_in_none.
Qed.

Lemma extract_gate_closed (now : datetime) (user_message bot_response : string)
    (user_id : Z) (w : world) :
  wants_to_schedule user_message = false ->
  _extract_appointment_data now user_message bot_response user_id w = (None, w).
Proof. intros H. unfold _extract_appointment_data. now rewrite H. Qed.

Lemma extract_not_corroborated (now : datetime)
    (user_message bot_response : string) (user_id : Z) (w : world) :
  should_create user_message bot_response = false ->
  _extract_appointment_data now user_message bot_response user_id w = (None, w).
Proof.
  unfold should_create, _extract_appointment_data. intros H.
  destruct (wants_to_schedule user_message); simpl in *; [|reflexivity].
  now rewrite H.
Qed.

(** C4: a user message with none of the scheduling keywords (matched on
    the lowered text) never leads to an appointment, whatever the
    assistant replied: the decision is negative, the result is [None],
    and nothing was parsed, logged or written on the way. *)
Theorem C4_no_scheduling_keyword_no_appointment
    (now : datetime) (user_message bot_response : string) (user_id : Z)
    (w : world) :
  (forall keyword, In keyword appointment_keywords ->
                   contains keyword (lower user_message) = false) ->
  should_create user_message bot_response = false
  /\ _extract_appointment_data now user_message bot_response user_id w
     = (None, w).
Proof.
  intros H. apply gate_closed_iff in H. split.
  - unfold should_create. now rewrite H.
  - now apply extract_gate_closed.
Qed.

Lemma C4_witness :
  should_create "Hello, see you 77:88"
    "Your appointment has been confirmed" = false
  /\ _extract_appointment_data monday_midnight "Hello, see you 77:88"
       "Your appointment has been confirmed" 7 empty_db
     = (None, empty_db).
Proof. apply C4_no_scheduling_keyword_no_appointment. each_keyword. Defined.

(** C5, as stated, fails: for this pair of texts the decision is
    negative. *)
Lemma C5_counterexample :
  should_create "just checking in"
    "Your appointment has been confirmed for Friday" <> true.
Proof. vm_compute. discriminate. Qed.

(** C5, amended: the reply confirms and the user gave no details, but
    the user message has no scheduling keyword, so the gate answers first
    and nothing is created.  The confirmation alone decides only behind
    the gate, as for the user message "book it". *)
Theorem C5_confirmation_counts_only_behind_the_gate :
  let user := "just checking in" in
  let reply := "Your appointment has been confirmed for Friday" in
  bot_confirms reply = true
  /\ has_details user = false
  /\ wants_to_schedule user = false
  /\ should_create user reply = false
  /\ (forall now user_id w,
        _extract_appointment_data now user reply user_id w = (None, w))
  /\ has_details "book it" = false
  /\ should_create "book it" reply = true.
Proof.
  cbv zeta.
  assert (closed : wants_to_schedule "just checking in" = false)
    by (vm_compute; reflexivity).
  split; [vm_compute; reflexivity|].
  split; [vm_compute; reflexivity|].
  split; [exact closed|].
  split; [vm_compute; reflexivity|].
  split; [intros now user_id w; now apply extract_gate_closed|].
  split; vm_compute; reflexivity.
Qed.

(** C10: each of the three tests is plain containment in the lowered
    text: it holds exactly when the lowered text is anything, then a
    keyword, then anything.  So "am" inside "exam" or "team" counts as a
    detail, and "facebook" and "revisit" open the gate. *)
Theorem C10_keyword_tests_are_substring_containment :
  (forall user_message,
      wants_to_schedule user_message = true <->
      exists keyword pre post,
        In keyword appointment_keywords
        /\ lower user_message = pre ++ keyword ++ post)
  /\ (forall user_message,
        has_details user_message = true <->
        exists keyword pre post,
          In keyword detail_keywords
          /\ lower user_message = pre ++ keyword ++ post)
  /\ (forall bot_response,
        bot_confirms bot_response = true <->
        exists keyword pre post,
          In keyword confirmation_keywords
          /\ lower bot_response = pre ++ keyword ++ post)
  /\ (forall pre post, has_details (pre ++ "am" ++ post) = true)
  /\ (forall pre post, has_details (pre ++ "exam" ++ post) = true)
  /\ (forall pre post, has_details (pre ++ "team" ++ post) = true)
  /\ (forall pre post, wants_to_schedule (pre ++ "facebook" ++ post) = true)
  /\ (forall pre post, wants_to_schedule (pre ++ "revisit" ++ post) = true).
Proof.
  assert (inside : forall keywords keyword pre mid post,
             In keyword keywords ->
             mid = lower mid ->
             contains keyword mid = true ->
             any_in keywords (lower (pre ++ mid ++ post)) = true).
  { intros keywords keyword pre mid post Hin Hlow Hc.
    apply contains_iff in Hc as (a & b & E).
    apply any_in_iff. exists keyword, (lower pre ++ a), (b ++ lower post).
    split; [exact Hin|].
    rewrite !lower_append, <- Hlow, E.
    now rewrite !append_assoc. }
  split; [intros; apply any_in_iff|].
  split; [intros; apply any_in_iff|].
  split; [intros; apply any_in_iff|].
  split; [|split; [|split; [|split]]]; intros pre post.
  - apply (inside _ "am"); [simpl; tauto | reflexivity | reflexivity].
  - apply (inside _ "am"); [simpl; tauto | reflexivity | reflexivity].
  - apply (inside _ "am"); [simpl; tauto | reflexivity | reflexivity].
  - apply (inside _ "book"); [simpl; tauto | reflexivity | reflexivity].
  - apply (inside _ "visit"); [simpl; tauto | reflexivity | reflexivity].
Qed.

(** ** Dates and clock fields *)

Section DatetimeFacts.

Lemma bind_ok {A B : Type} (r : result A) (f : A -> result B) (b : B) :
  bind r f = Ok b -> exists a, r = Ok a /\ f a = Ok b.
Proof. destruct r as [a|e]; simpl; [now exists a | discriminate]. Qed.

Lemma add_days_ok (d r : datetime) (k : Z) :
  add_days d k = Ok r ->
  ordinal r = ordinal d + k /\ hour r = hour d /\ minute r = minute d
  /\ second r = second d /\ microsecond r = microsecond d
  /\ 1 <= ordinal r <= MAXORDINAL.
Proof.
  unfold add_days.
  destruct ((1 <=? ordinal d + k) && (ordinal d + k <=? MAXORDINAL)) eqn:E;
    [|discriminate].
  intros [= <-]. simpl. apply andb_true_iff in E as [E1 E2]. lia.
Qed.

Lemma add_days_in_range (d : datetime) (k : Z) :
  1 <= ordinal d + k <= MAXORDINAL ->
  add_days d k
  = Ok {| ordinal := ordinal d + k; hour := hour d; minute := minute d;
          second := second d; microsecond := microsecond d |}.
Proof.
  intros H. unfold add_days.
  replace ((1 <=? ordinal d + k) && (ordinal d + k <=? MAXORDINAL)) with true;
    [reflexivity|].
  symmetry. apply andb_true_iff. lia.
Qed.

Lemma replace_ten (d : datetime) : replace d 10 0 0 0 = Ok (at_ten (ordinal d)).
Proof. reflexivity. Qed.

Lemma replace_hm_ok (d r : datetime) (h m : Z) :
  replace_hm d h m = Ok r ->
  r = {| ordinal := ordinal d; hour := h; minute := m;
         second := second d; microsecond := microsecond d |}
  /\ 0 <= h <= 23 /\ 0 <= m <= 59.
Proof.
  unfold replace_hm, replace.
  destruct (in_range 0 23 h) eqn:Eh; [|discriminate].
  destruct (in_range 0 59 m) eqn:Em; [|discriminate].
  destruct (in_range 0 59 (second d)); [|discriminate].
  destruct (in_range 0 999999 (microsecond d)); [|discriminate].
  intros [= <-]. unfold in_range in Eh, Em.
  apply andb_true_iff in Eh as [? ?], Em as [? ?].
  split; [reflexivity | lia].
Qed.

Lemma replace_hm_in_range (d : datetime) (h m : Z) :
  0 <= h <= 23 -> 0 <= m <= 59 -> second d = 0 -> microsecond d = 0 ->
  replace_hm d h m
  = Ok {| ordinal := ordinal d; hour := h; minute := m;
          second := 0; microsecond := 0 |}.
Proof.
  intros Hh Hm Hs Hu. unfold replace_hm, replace, in_range. rewrite Hs, Hu.
  replace ((0 <=? h) && (h <=? 23)) with true by (symmetry; apply andb_true_iff; lia).
  replace ((0 <=? m) && (m <=? 59)) with true by (symmetry; apply andb_true_iff; lia).
  reflexivity.
Qed.

Lemma weekday_range (d : datetime) : 0 <= weekday d <= 6.
Proof. unfold weekday. pose proof (Z.mod_pos_bound (ordinal d + 6) 7). lia. Qed.

Lemma day_num_range (name : string) (day_num : Z) :
  In (name, day_num) days_of_week -> 0 <= day_num <= 6.
Proof.
  simpl. intros H.
  repeat (destruct H as [[= <- <-]|H]; [lia|]). contradiction.
Qed.

Lemma days_until_range (now : datetime) (day_num : Z) :
  0 <= day_num <= 6 -> 1 <= days_until now day_num <= 7.
Proof.
  intros H. pose proof (weekday_range now). unfold days_until.
  destruct (day_num - weekday now <=? 0) eqn:E; lia.
Qed.

(** The day reached is the named weekday. *)
Lemma days_until_weekday (now : datetime) (day_num : Z) :
  0 <= day_num <= 6 ->
  (ordinal now + days_until now day_num + 6) mod 7 = day_num.
Proof.
  intros H. unfold days_until, weekday.
  destruct (day_num - (ordinal now + 6) mod 7 <=? 0);
    Z.div_mod_to_equations; lia.
Qed.

Lemma days_until_same_day (now : datetime) : days_until now (weekday now) = 7.
Proof. unfold days_until. rewrite Z.sub_diag. reflexivity. Qed.

Lemma lt_of_later_day (a b : datetime) : ordinal a < ordinal b -> lt a b.
Proof.
  intros H. unfold lt, compare.
  now rewrite (proj2 (Z.compare_lt_iff _ _) H).
Qed.

Lemma lt_not_le (a b : datetime) : lt a b -> ~ le b a.
Proof.
  unfold lt, le, compare, then_cmp. intros H N. apply N. clear N.
  rewrite (Z.compare_antisym (ordinal a)), (Z.compare_antisym (hour a)),
    (Z.compare_antisym (minute a)), (Z.compare_antisym (second a)),
    (Z.compare_antisym (microsecond a)).
  destruct (ordinal a ?= ordinal b); simpl; try easy.
  destruct (hour a ?= hour b); simpl; try easy.
  destruct (minute a ?= minute b); simpl; try easy.
  destruct (second a ?= second b); simpl; try easy.
  destruct (microsecond a ?= microsecond b); simpl; easy.
Qed.

End DatetimeFacts.

(** ** The base date (lines 213-241) *)

Section BaseDate.

Variable message_lower : string.

Let named (entry : string * Z) : bool := contains (fst entry) message_lower.

Ltac weekday_found :=
  intros [= <- <-];
  split; [simpl; auto 10|];
  split; [assumption|];
  let n := fresh "n" in
  let d := fresh "d" in
  let Hin := fresh "Hin" in
  let Hlt := fresh "Hlt" in
  intros n d Hin Hlt; simpl in Hin;
  repeat (destruct Hin as [[= <- <-]|Hin]; [first [assumption | lia]|]);
  contradiction.

Lemma find_weekday_some (name : string) (day_num : Z) :
  find named days_of_week = Some (name, day_num) ->
  first_weekday message_lower name day_num.
Proof.
  unfold named, days_of_week; cbn [find fst].
  destruct (contains "monday" message_lower) eqn:E0; [weekday_found|].
  destruct (contains "tuesday" message_lower) eqn:E1; [weekday_found|].
  destruct (contains "wednesday" message_lower) eqn:E2; [weekday_found|].
  destruct (contains "thursday" message_lower) eqn:E3; [weekday_found|].
  destruct (contains "friday" message_lower) eqn:E4; [weekday_found|].
  destruct (contains "saturday" message_lower) eqn:E5; [weekday_found|].
  destruct (contains "sunday" message_lower) eqn:E6; [weekday_found|].
  discriminate.
Qed.

Lemma find_weekday_none :
  find named days_of_week = None -> no_weekday message_lower.
Proof.
  unfold named, days_of_week; cbn [find fst].
  destruct (contains "monday" message_lower) eqn:E0; [discriminate|].
  destruct (contains "tuesday" message_lower) eqn:E1; [discriminate|].
  destruct (contains "wednesday" message_lower) eqn:E2; [discriminate|].
  destruct (contains "thursday" message_lower) eqn:E3; [discriminate|].
  destruct (contains "friday" message_lower) eqn:E4; [discriminate|].
  destruct (contains "saturday" message_lower) eqn:E5; [discriminate|].
  destruct (contains "sunday" message_lower) eqn:E6; [discriminate|].
  intros _ n d Hin. simpl in Hin.
  repeat (destruct Hin as [[= <- <-]|Hin]; [assumption|]). contradiction.
Qed.

Lemma day_name_unique (name name' : string) (day_num : Z) :
  In (name, day_num) days_of_week -> In (name', day_num) days_of_week ->
  name' = name.
Proof.
  simpl. intros H H'.
  repeat (destruct H as [[= <- <-]|H];
          [repeat (destruct H' as [E|H']; [now inversion E|]); contradiction|]).
  contradiction.
Qed.

Lemma first_weekday_find (name : string) (day_num : Z) :
  first_weekday message_lower name day_num ->
  find named days_of_week = Some (name, day_num).
Proof.
  intros H. destruct (find named days_of_week) as [[name' num']|] eqn:F.
  - apply find_weekday_some in F.
    destruct H as (Hin & Hc & Hfirst), F as (Hin' & Hc' & Hfirst').
    destruct (Z.lt_trichotomy num' day_num) as [L|[E|L]].
    + rewrite (Hfirst _ _ Hin' L) in Hc'. discriminate.
    + subst num'. now rewrite (day_name_unique _ _ _ Hin Hin').
    + rewrite (Hfirst' _ _ Hin L) in Hc. discriminate.
  - apply find_weekday_none in F. destruct H as (Hin & Hc & _).
    rewrite (F _ _ Hin) in Hc. discriminate.
Qed.

Lemma no_weekday_find : no_weekday message_lower -> find named days_of_week = None.
Proof.
  intros H. destruct (find named days_of_week) as [[name num]|] eqn:F;
    [|reflexivity].
  apply find_weekday_some in F as (Hin & Hc & _).
  rewrite (H _ _ Hin) in Hc. discriminate.
Qed.

(** What [resolve_base_date] returns, when it returns. *)
Lemma resolve_base_date_inv (now b : datetime) :
  resolve_base_date now message_lower = Ok b ->
  b = at_ten (ordinal b)
  /\ ((exists name day_num,
         first_weekday message_lower name day_num
         /\ ordinal b = ordinal now + days_until now day_num)
      \/ (no_weekday message_lower
          /\ contains "today" message_lower = true
          /\ ordinal b = ordinal now)
      \/ (no_weekday message_lower
          /\ contains "today" message_lower = false
          /\ ordinal b = ordinal now + 1)).
Proof.
  unfold resolve_base_date. intros H.
  apply bind_ok in H as (b1 & H1 & H).
  apply bind_ok in H as (b2 & H2 & H).
  apply bind_ok in H as (b3 & H3 & H).
  fold named in H.
  destruct (find named days_of_week) as [[name day_num]|] eqn:F.
  - apply bind_ok in H as (b4 & H4 & H).
    rewrite replace_ten in H. injection H as <-.
    apply add_days_ok in H4 as (H4 & _).
    split; [reflexivity|]. left. exists name, day_num.
    split; [now apply find_weekday_some|]. exact H4.
  - injection H as <-. apply find_weekday_none in F.
    apply add_days_ok in H1 as (H1 & _).
    rewrite replace_ten in H2. injection H2 as <-.
    destruct (contains "today" message_lower) eqn:T.
    + rewrite replace_ten in H3. injection H3 as <-.
      split; [reflexivity|]. right. left. auto.
    + assert (E : b3 = at_ten (ordinal now + 1)).
      { destruct (contains "tomorrow" message_lower).
        - apply bind_ok in H3 as (b5 & H5 & H3).
          apply add_days_ok in H5 as (H5 & _).
          rewrite replace_ten, H5 in H3. now injection H3 as <-.
        - injection H3 as <-. now rewrite H1. }
      subst b3. split; [reflexivity|]. right. right. auto.
Qed.

Section InRange.

Variable now : datetime.
Hypothesis now_low : 1 <= ordinal now.
Hypothesis now_high : ordinal now + 7 <= MAXORDINAL.

Lemma resolve_base_date_weekday (name : string) (day_num : Z) :
  first_weekday message_lower name day_num ->
  resolve_base_date now message_lower
  = Ok (at_ten (ordinal now + days_until now day_num)).
Proof.
  intros H. pose proof (day_num_range _ _ (proj1 H)) as R.
  pose proof (days_until_range now _ R) as U.
  apply first_weekday_find in H. unfold resolve_base_date.
  rewrite (add_days_in_range now 1) by lia. cbn [bind]. rewrite !replace_ten.
  cbn [bind ordinal]. fold named. rewrite H.
  fold (days_until now day_num).
  destruct (contains "today" message_lower);
    [|destruct (contains "tomorrow" message_lower)];
    cbn [bind]; rewrite add_days_in_range by lia; reflexivity.
Qed.

Lemma resolve_base_date_no_weekday :
  no_weekday message_lower ->
  resolve_base_date now message_lower
  = Ok (at_ten (if contains "today" message_lower
                then ordinal now else ordinal now + 1)).
Proof.
  intros H. apply no_weekday_find in H. unfold resolve_base_date.
  rewrite (add_days_in_range now 1) by lia. cbn [bind]. rewrite !replace_ten.
  cbn [bind ordinal]. fold named. rewrite H.
  destruct (contains "today" message_lower);
    [|destruct (contains "tomorrow" message_lower)];
    cbn [bind]; reflexivity.
Qed.

End InRange.

End BaseDate.

(** ** Clock patterns and time descriptions (lines 243-278) *)

Section ClockTime.

(** A clock pattern changes hour and minute only, and only to values a
    [datetime] can hold. *)
Lemma apply_match_ok (m : match_object) (b b' : datetime) :
  apply_match m b = Ok b' ->
  ordinal b' = ordinal b /\ second b' = second b
  /\ microsecond b' = microsecond b
  /\ 0 <= hour b' <= 23 /\ 0 <= minute b' <= 59.
Proof.
  unfold apply_match. intros H.
  apply bind_ok in H as ([[h mi] ampm] & _ & H).
  apply replace_hm_ok in H as (-> & Hh & Hm). simpl. auto.
Qed.

Lemma apply_time_patterns_ok (patterns : list regex) (message_lower : string)
    (b b' : datetime) :
  apply_time_patterns patterns message_lower b = Ok b' ->
  ordinal b' = ordinal b /\ second b' = second b
  /\ microsecond b' = microsecond b.
Proof.
  induction patterns as [|pattern rest IH]; cbn [apply_time_patterns].
  - intros [= <-]. auto.
  - destruct (search pattern message_lower) as [m|]; [|exact IH].
    intros H. apply apply_match_ok in H. tauto.
Qed.

Lemma apply_time_descriptions_ok (message_lower : string) (b d : datetime) :
  apply_time_descriptions message_lower b = Ok d ->
  ordinal d = ordinal b /\ second d = second b
  /\ microsecond d = microsecond b.
Proof.
  unfold apply_time_descriptions.
  destruct (contains "morning" message_lower);
    [|destruct (contains "afternoon" message_lower);
      [|destruct (contains "evening" message_lower)]];
    intros H; try (apply replace_hm_ok in H as (-> & _); simpl; auto).
  injection H as <-. auto.
Qed.

Lemma apply_time_descriptions_keyword (message_lower keyword : string)
    (h : Z) (b : datetime) :
  first_time_keyword message_lower keyword h ->
  apply_time_descriptions message_lower b = replace_hm b h 0.
Proof.
  unfold apply_time_descriptions.
  intros [(_ & -> & M)|[(_ & -> & M & A)|(_ & -> & M & A & E)]];
    rewrite M; try rewrite A; try rewrite E; reflexivity.
Qed.

(** Every time pattern starts with a digit: at a position that holds
    none, it does not match. *)
Lemma hour_digits_need_a_digit {R : Type} (n : nat) (rest : regex)
    (pos : nat) (s : string) (c : captures) (k : cont R) :
  match s with String a _ => digit a = false | EmptyString => True end ->
  run (Seq (Group n hour_digits) rest) pos s c k = None.
Proof.
  cbn [run hour_digits]. destruct s as [|a s]; cbn [repeat_greedy].
  - reflexivity.
  - intros ->. reflexivity.
Qed.

Lemma search_needs_a_digit (n : nat) (rest : regex) (s : string) :
  digit_free s = true ->
  search (Seq (Group n hour_digits) rest) s = None.
Proof.
  induction s as [|a s IH]; cbn [digit_free search]; intros H.
  - unfold match_here. now rewrite hour_digits_need_a_digit.
  - apply andb_true_iff in H as [Ha Hs]. apply negb_true_iff in Ha.
    unfold match_here. rewrite hour_digits_need_a_digit by exact Ha.
    cbn [or_else]. now apply IH.
Qed.

Lemma apply_time_patterns_without_digits (message_lower : string)
    (b : datetime) :
  digit_free message_lower = true ->
  apply_time_patterns time_patterns message_lower b = Ok b.
Proof.
  intros H. unfold time_patterns. cbn [apply_time_patterns].
  now rewrite !search_needs_a_digit by exact H.
Qed.

Lemma digit_lower_char (c : ascii) : digit (lower_char c) = digit c.
Proof.
  destruct c as [[] [] [] [] [] [] [] []]; vm_compute; reflexivity.
Qed.

Lemma digit_free_lower (s : string) : digit_free (lower s) = digit_free s.
Proof.
  induction s as [|c s IH]; cbn [lower digit_free]; [reflexivity|].
  now rewrite digit_lower_char, IH.
Qed.

(** The three phases of [_parse_date_time], read off a successful run. *)
Lemma parse_date_time_value_inv (now : datetime) (user_message : string)
    (d : datetime) :
  parse_date_time_value now user_message = Ok d ->
  exists b b',
    resolve_base_date now (lower user_message) = Ok b
    /\ apply_time_patterns time_patterns (lower user_message) b = Ok b'
    /\ apply_time_descriptions (lower user_message) b' = Ok d
    /\ ordinal d = ordinal b /\ second d = 0 /\ microsecond d = 0.
Proof.
  unfold parse_date_time_value. intros H.
  apply bind_ok in H as (b & Hb & H). apply bind_ok in H as (b' & Hb' & H).
  exists b, b'. repeat (split; [assumption|]).
  apply resolve_base_date_inv in Hb as (Eb & _).
  apply apply_time_patterns_ok in Hb' as (O1 & S1 & U1).
  apply apply_time_descriptions_ok in H as (O2 & S2 & U2).
  rewrite Eb in S1, U1. simpl in S1, U1. lia.
Qed.

(** On a message without digits the extractor returns a timestamp, with
    the minute at 0 and the hour at 10 or the hour of a time description. *)
Lemma parse_date_time_value_without_digits (now : datetime)
    (user_message : string) :
  1 <= ordinal now -> ordinal now + 7 <= MAXORDINAL ->
  digit_free user_message = true ->
  exists d, parse_date_time_value now user_message = Ok d
            /\ In (hour d) [10; 9; 14; 18] /\ minute d = 0.
Proof.
  intros Hlow Hhigh D. rewrite <- digit_free_lower in D.
  unfold parse_date_time_value.
  assert (B : exists o, resolve_base_date now (lower user_message)
                        = Ok (at_ten o)).
  { destruct (find (fun entry => contains (fst entry) (lower user_message))
                days_of_week) as [[name day_num]|] eqn:F.
    - apply find_weekday_some in F. eexists.
      eapply resolve_base_date_weekday; eassumption.
    - apply find_weekday_none in F. eexists.
      eapply resolve_base_date_no_weekday; eassumption. }
  destruct B as (o & ->). cbn [bind].
  rewrite apply_time_patterns_without_digits by exact D. cbn [bind].
  unfold apply_time_descriptions.
  destruct (contains "morning" (lower user_message));
    [|destruct (contains "afternoon" (lower user_message));
      [|destruct (contains "evening" (lower user_message))]];
    eexists; (split; [reflexivity|]); (split; [simpl; auto 10 | reflexivity]).
Qed.

End ClockTime.

(** C1, at the failing inputs: whatever the reference time, the
    extractor returns no timestamp for "77:88" or "13 pm"; on an ordinary
    day the exception is the [ValueError] of [replace], which the caller
    logs before giving up on the appointment. *)
Theorem C1_out_of_range_clock_raises :
  (forall now s, _parse_date_time now "77:88" <> Ok s)
  /\ (forall now s, _parse_date_time now "13 pm" <> Ok s)
  /\ _parse_date_time monday_midnight "77:88" = Raise ValueError
  /\ _parse_date_time monday_midnight "13 pm" = Raise ValueError
  /\ _extract_appointment_data monday_midnight "Book me in tomorrow at 77:88"
       "" 7 empty_db
     = (None,
        log_append (LogError "Error parsing appointment details" ValueError)
          empty_db).
Proof.
  assert (clock1 : forall b,
             apply_time_patterns time_patterns (lower "77:88") b
             = Raise ValueError) by (intros b; vm_compute; reflexivity).
  assert (clock2 : forall b,
             apply_time_patterns time_patterns (lower "13 pm") b
             = Raise ValueError) by (intros b; vm_compute; reflexivity).
  split; [|split; [|repeat split; vm_compute; reflexivity]].
  - intros now s H. unfold _parse_date_time in H.
    apply bind_ok in H as (d & H & _).
    apply parse_date_time_value_inv in H as (b & b' & _ & H & _).
    rewrite clock1 in H. discriminate.
  - intros now s H. unfold _parse_date_time in H.
    apply bind_ok in H as (d & H & _).
    apply parse_date_time_value_inv in H as (b & b' & _ & H & _).
    rewrite clock2 in H. discriminate.
Qed.

(** When the message contains a time description, the one whose branch
    is taken is the first present in the order morning, afternoon,
    evening.  Every timestamp the extractor returns then has that
    description's hour and minute 0, and it does return one, on the
    resolved date, as soon as the base date resolves and the clock
    pattern found in the message, if any, is a valid time: the
    description replaces both the 10:00 default and the clock time. *)
Lemma time_description_overrides_clock
    (now : datetime) (user_message keyword : string) (h : Z) :
  first_time_keyword (lower user_message) keyword h ->
  (forall d, parse_date_time_value now user_message = Ok d ->
             hour d = h /\ minute d = 0)
  /\ (forall b b',
        resolve_base_date now (lower user_message) = Ok b ->
        apply_time_patterns time_patterns (lower user_message) b = Ok b' ->
        parse_date_time_value now user_message
        = Ok {| ordinal := ordinal b; hour := h; minute := 0;
                second := 0; microsecond := 0 |}).
Proof.
  intros K. split.
  - intros d H.
    apply parse_date_time_value_inv in H as (b & b' & _ & _ & H & _).
    rewrite (apply_time_descriptions_keyword _ _ _ _ K) in H.
    apply replace_hm_ok in H as (-> & _). simpl. auto.
  - intros b b' Hb Hb'. unfold parse_date_time_value.
    rewrite Hb. cbn [bind]. rewrite Hb'. cbn [bind].
    rewrite (apply_time_descriptions_keyword _ _ _ _ K).
    apply resolve_base_date_inv in Hb as (Eb & _).
    apply apply_time_patterns_ok in Hb' as (O1 & S1 & U1).
    rewrite Eb in S1, U1. simpl in S1, U1.
    assert (R : 0 <= h <= 23)
      by (destruct K as [(_ & -> & _)|[(_ & -> & _)|(_ & -> & _)]]; lia).
    rewrite replace_hm_in_range by (assumption || lia). now rewrite O1.
Qed.

Example morning_overrides_3pm :
  first_time_keyword (lower "Monday at 3pm in the morning") "morning" 9
  /\ parse_date_time_value monday_midnight "Monday at 3pm in the morning"
     = Ok (make 2024 1 8 9 0 0).
Proof.
  assert (K : first_time_keyword (lower "Monday at 3pm in the morning")
                "morning" 9)
    by (left; repeat split; reflexivity).
  split; [exact K|].
  exact (proj2 (time_description_overrides_clock monday_midnight
                  "Monday at 3pm in the morning" "morning" 9 K)
           (make 2024 1 8 10 0 0) (make 2024 1 8 15 0 0)
           eq_refl eq_refl).
Qed.

(** C2, at the failing input: "Monday at 25:00 in the morning" contains
    the keyword "morning", yet no time of day is extracted at any
    reference time: the clock pattern matches "25:00" first and
    [replace] raises [ValueError] before the keyword is looked at.  With
    a valid clock time in its place the keyword does override it: for
    "Monday at 3pm in the morning" the result is 09:00 on the Monday
    resolved. *)
Theorem C2_keyword_after_invalid_clock_raises :
  contains "morning" (lower "Monday at 25:00 in the morning") = true
  /\ (forall now s,
        _parse_date_time now "Monday at 25:00 in the morning" <> Ok s)
  /\ _parse_date_time monday_midnight "Monday at 25:00 in the morning"
     = Raise ValueError
  /\ _parse_date_time monday_midnight "Monday at 3pm in the morning"
     = Ok "2024-01-08T09:00:00".
Proof.
  assert (clock : forall b,
             apply_time_patterns time_patterns
               (lower "Monday at 25:00 in the morning") b
             = Raise ValueError) by (intros b; vm_compute; reflexivity).
  split; [reflexivity|].
  split; [|split; vm_compute; reflexivity].
  intros now s H. unfold _parse_date_time in H.
  apply bind_ok in H as (d & H & _).
  apply parse_date_time_value_inv in H as (b & b' & _ & H & _).
  rewrite clock in H. discriminate.
Qed.

(** ** Claims about the base date *)

(** Proves [first_weekday] for a literal message. *)
Ltac literal_first_weekday :=
  split; [simpl; auto 10|];
  split; [vm_compute; reflexivity|];
  let n := fresh "n" in
  let d := fresh "d" in
  let Hin := fresh "Hin" in
  let Hlt := fresh "Hlt" in
  intros n d Hin Hlt; simpl in Hin;
  repeat (destruct Hin as [[= <- <-]|Hin];
          [first [lia | vm_compute; reflexivity
                 | exfalso; vm_compute in Hlt; discriminate Hlt]|]);
  contradiction.

(** C3, as stated, fails: on Monday 2024-01-01 this message contains
    "today", yet the base date is the Friday that follows. *)
Lemma C3_counterexample :
  contains "today" (lower "Today, or else on Friday") = true
  /\ resolve_base_date monday_midnight (lower "Today, or else on Friday")
     = Ok (at_ten (ordinal monday_midnight + 4))
  /\ _parse_date_time monday_midnight "Today, or else on Friday"
     = Ok "2024-01-05T10:00:00".
Proof. repeat split; vm_compute; reflexivity. Qed.

(** C3, amended: a weekday name decides first, with or without "today"
    or "tomorrow" in the message: the base date is the next day strictly
    after the reference day, at most 7 days on, that falls on the first
    weekday (in the order monday .. sunday) the message names.  Without
    a weekday name, "today" gives the reference day and anything else
    ("tomorrow" or nothing) the day after.  The time of day is 10:00:00
    in every case.  The reference day is taken at least 7 days before
    the last day [datetime] can hold. *)
Theorem C3_base_date_resolution (now : datetime) (user_message : string) :
  1 <= ordinal now -> ordinal now + 7 <= MAXORDINAL ->
  let message_lower := lower user_message in
  (forall name day_num,
      first_weekday message_lower name day_num ->
      exists b,
        resolve_base_date now message_lower = Ok b
        /\ b = at_ten (ordinal b)
        /\ ordinal now < ordinal b <= ordinal now + 7
        /\ weekday b = day_num)
  /\ (no_weekday message_lower ->
      contains "today" message_lower = true ->
      resolve_base_date now message_lower = Ok (at_ten (ordinal now)))
  /\ (no_weekday message_lower ->
      contains "today" message_lower = false ->
      resolve_base_date now message_lower = Ok (at_ten (ordinal now + 1))).
Proof.
  intros Hlow Hhigh message_lower. split; [|split].
  - intros name day_num H.
    pose proof (day_num_range _ _ (proj1 H)) as R.
    pose proof (days_until_range now _ R) as U.
    exists (at_ten (ordinal now + days_until now day_num)).
    split; [now apply resolve_base_date_weekday with (name := name)|].
    split; [reflexivity|]. split; [simpl; lia|].
    unfold weekday. simpl. now apply days_until_weekday.
  - intros H T. rewrite resolve_base_date_no_weekday by assumption.
    now rewrite T.
  - intros H T. rewrite resolve_base_date_no_weekday by assumption.
    now rewrite T.
Qed.

Lemma C3_witness :
  exists b,
    resolve_base_date monday_midnight (lower "Today, or else on Friday") = Ok b
    /\ b = at_ten (ordinal b)
    /\ ordinal monday_midnight < ordinal b <= ordinal monday_midnight + 7
    /\ weekday b = 4.
Proof.
  apply (proj1 (C3_base_date_resolution monday_midnight
                  "Today, or else on Friday"
                  ltac:(vm_compute; discriminate)
                  ltac:(vm_compute; discriminate)) "friday" 4).
  literal_first_weekday.
Defined.

(** C8, as stated, fails: on Wednesday 2024-01-03 this message names
    the weekday of the reference day and has neither "today" nor
    "tomorrow", yet the base date is the reference day plus 5 days: the
    loop stops at "monday", which comes first in its table. *)
Lemma C8_counterexample :
  weekday wednesday_midnight = 2
  /\ In ("wednesday", weekday wednesday_midnight) days_of_week
  /\ contains "wednesday" (lower "Wednesday or Monday") = true
  /\ contains "today" (lower "Wednesday or Monday") = false
  /\ contains "tomorrow" (lower "Wednesday or Monday") = false
  /\ resolve_base_date wednesday_midnight (lower "Wednesday or Monday")
     = Ok (at_ten (ordinal wednesday_midnight + 5))
  /\ at_ten (ordinal wednesday_midnight + 5)
     <> at_ten (ordinal wednesday_midnight + 7).
Proof.
  repeat split; try (vm_compute; reflexivity).
  - vm_compute. auto 10.
  - vm_compute. discriminate.
Qed.

(** C8, amended: when the message names the weekday of the reference
    day and no weekday that comes before it in the order monday ..
    sunday, the base date is the reference day plus 7 days at 10:00, and
    every timestamp the extractor returns lies on that day, never on the
    reference day itself.  This holds with or without "today" or
    "tomorrow" in the message. *)
Theorem C8_same_weekday_rolls_a_week
    (now : datetime) (user_message name : string) :
  1 <= ordinal now -> ordinal now + 7 <= MAXORDINAL ->
  first_weekday (lower user_message) name (weekday now) ->
  resolve_base_date now (lower user_message) = Ok (at_ten (ordinal now + 7))
  /\ (forall d, parse_date_time_value now user_message = Ok d ->
                ordinal d = ordinal now + 7 /\ ordinal d <> ordinal now).
Proof.
  intros Hlow Hhigh H.
  assert (E : resolve_base_date now (lower user_message)
              = Ok (at_ten (ordinal now + 7))).
  { rewrite (resolve_base_date_weekday _ now Hlow Hhigh _ _ H).
    now rewrite days_until_same_day. }
  split; [exact E|]. intros d Hd.
  apply parse_date_time_value_inv in Hd as (b & _ & Hb & _ & _ & O & _).
  rewrite E in Hb. injection Hb as <-. simpl in O. lia.
Qed.

Lemma C8_witness :
  resolve_base_date monday_midnight (lower "See you Monday at 3pm")
  = Ok (at_ten (ordinal monday_midnight + 7))
  /\ (forall d,
        parse_date_time_value monday_midnight "See you Monday at 3pm" = Ok d ->
        ordinal d = ordinal monday_midnight + 7
        /\ ordinal d <> ordinal monday_midnight).
Proof.
  apply (C8_same_weekday_rolls_a_week monday_midnight
           "See you Monday at 3pm" "monday").
  - vm_compute. discriminate.
  - vm_compute. discriminate.
  - literal_first_weekday.
Defined.

(** C7, as stated, fails: at 15:00 on 2024-01-01 a message saying
    "today" yields 10:00 of the same day, five hours before the
    reference time, and the draft carrying it is created. *)
Lemma C7_counterexample :
  (exists d,
      parse_date_time_value monday_afternoon "Book a checkup today" = Ok d
      /\ lt d monday_afternoon /\ ~ le monday_afternoon d)
  /\ option_map appointment_date
       (fst (_extract_appointment_data monday_afternoon
               "Book a checkup today" "" 7 empty_db))
     = Some "2024-01-01T10:00:00".
Proof.
  split; [|vm_compute; reflexivity].
  exists (make 2024 1 1 10 0 0).
  split; [vm_compute; reflexivity|].
  assert (L : lt (make 2024 1 1 10 0 0) monday_afternoon)
    by (vm_compute; reflexivity).
  split; [exact L | now apply lt_not_le].
Qed.

(** C7, amended: a timestamp the extractor returns lies after the
    reference time, 1 to 7 days on, whenever the message names a weekday
    or does not say "today".  When it says "today" and names no weekday,
    the timestamp is on the reference day itself, at the resolved time of
    day, which may be earlier than the reference time. *)
Theorem C7_future_unless_today
    (now : datetime) (user_message : string) (d : datetime) :
  parse_date_time_value now user_message = Ok d ->
  let message_lower := lower user_message in
  (((exists name day_num, In (name, day_num) days_of_week
                          /\ contains name message_lower = true)
    \/ contains "today" message_lower = false) ->
   ordinal now < ordinal d <= ordinal now + 7 /\ lt now d)
  /\ (no_weekday message_lower ->
      contains "today" message_lower = true ->
      ordinal d = ordinal now).
Proof.
  intros H message_lower.
  apply parse_date_time_value_inv in H as (b & _ & Hb & _ & _ & O & _).
  apply resolve_base_date_inv in Hb as (_ & Hb). fold message_lower in Hb.
  destruct Hb as [(name & day_num & F & E)|[(N & T & E)|(N & T & E)]].
  - pose proof (day_num_range _ _ (proj1 F)) as R.
    pose proof (days_until_range now _ R) as U.
    split.
    + intros _. split; [lia|]. apply lt_of_later_day. lia.
    + intros N _. destruct F as (Hin & Hc & _).
      rewrite (N _ _ Hin) in Hc. discriminate.
  - split; [|intros _ _; lia].
    intros [(name & day_num & Hin & Hc)|T'].
    + rewrite (N _ _ Hin) in Hc. discriminate.
    + rewrite T in T'. discriminate.
  - split.
    + intros _. split; [lia|]. apply lt_of_later_day. lia.
    + intros _ T'. rewrite T in T'. discriminate.
Qed.

Lemma C7_witness :
  (((exists name day_num,
        In (name, day_num) days_of_week
        /\ contains name (lower "Book a checkup on Friday at 9:15") = true)
    \/ contains "today" (lower "Book a checkup on Friday at 9:15") = false) ->
   ordinal monday_afternoon < ordinal (make 2024 1 5 9 15 0)
     <= ordinal monday_afternoon + 7
   /\ lt monday_afternoon (make 2024 1 5 9 15 0))
  /\ (no_weekday (lower "Book a checkup on Friday at 9:15") ->
      contains "today" (lower "Book a checkup on Friday at 9:15") = true ->
      ordinal (make 2024 1 5 9 15 0) = ordinal monday_afternoon).
Proof.
  apply (C7_future_unless_today monday_afternoon
           "Book a checkup on Friday at 9:15" (make 2024 1 5 9 15 0)).
  vm_compute. reflexivity.
Defined.

(** ** The draft and its insertion *)

Lemma insert_failure_none (a : appointment_data) (w : world) :
  insert_failure a w = None <->
  db_up w = true /\ has_nul_parameter a = false /\ insert_error w = None.
Proof.
  unfold insert_failure.
  destruct (db_up w); cbn [negb]; [|split; [discriminate | intros (H & _); discriminate]].
  destruct (has_nul_parameter a); [split; [discriminate | intros (_ & H & _); discriminate]|].
  tauto.
Qed.

Lemma extract_creates (now : datetime) (user_message bot_response : string)
    (user_id : Z) (w : world) (a : appointment_data) :
  should_create user_message bot_response = true ->
  parse_appointment_details_body now user_message bot_response = Ok a ->
  insert_failure a w = None ->
  _extract_appointment_data now user_message bot_response user_id w
  = (if next_id w =? 0 then None else Some (with_id (next_id w) a),
     {| db_up := db_up w; insert_error := insert_error w;
        next_id := next_id w + 1;
        appointments := appointments w ++ [row_of (next_id w) user_id a];
        log := log w ++ [LogInfo "Created appointment" (next_id w) user_id] |}).
Proof.
  unfold should_create, _extract_appointment_data, _parse_appointment_details,
    _create_appointment.
  intros S P U. apply andb_true_iff in S as [G C].
  rewrite G, C, P. cbn [negb]. rewrite U.
  destruct (next_id w =? 0); reflexivity.
Qed.

Lemma extract_insert_fails (now : datetime)
    (user_message bot_response : string) (user_id : Z) (w : world)
    (a : appointment_data) (e : exn) :
  should_create user_message bot_response = true ->
  parse_appointment_details_body now user_message bot_response = Ok a ->
  insert_failure a w = Some e ->
  _extract_appointment_data now user_message bot_response user_id w
  = (None, log_append (LogError "Error creating appointment" e) w).
Proof.
  unfold should_create, _extract_appointment_data, _parse_appointment_details,
    _create_appointment.
  intros S P U. apply andb_true_iff in S as [G C].
  rewrite G, C, P. cbn [negb]. now rewrite U.
Qed.

(** C9: the assembled draft has type consultation, 45 minutes and the
    date 2024-01-02T14:30:00; with the database reachable and accepting
    the insert, the pipeline returns that draft with the id the insert
    assigned. *)
Theorem C9_consultation_tomorrow_at_half_past_two :
  let user := "Can I schedule a consultation tomorrow at 2:30 PM for 45 minutes" in
  let draft :=
    {| title := "Consultation"; description := user;
       appointment_type := "consultation"; duration_minutes := 45;
       location := None; notes := None;
       appointment_date := "2024-01-02T14:30:00"; id := None |} in
  parse_date_time_value monday_midnight user = Ok (make 2024 1 2 14 30 0)
  /\ parse_appointment_details_body monday_midnight user "" = Ok draft
  /\ should_create user "" = true
  /\ (forall user_id next rows lines,
        fst (_extract_appointment_data monday_midnight user "" user_id
               {| db_up := true; insert_error := None;
                  next_id := Z.pos next;
                  appointments := rows; log := lines |})
        = Some (with_id (Z.pos next) draft)).
Proof.
  cbv zeta.
  split; [vm_compute; reflexivity|].
  split; [vm_compute; reflexivity|].
  split; [vm_compute; reflexivity|].
  intros user_id next rows lines. vm_compute. reflexivity.
Qed.

(** C6, as stated, fails: run on an empty table, the pipeline leaves a
    row in it. *)
Lemma C6_counterexample :
  appointments
    (snd (_extract_appointment_data monday_midnight "Book a visit tomorrow" ""
            7 empty_db))
  = [ {| row_id := 1; row_user_id := 7; row_title := "Appointment";
         row_description := "Book a visit tomorrow";
         row_appointment_date := "2024-01-02T10:00:00";
         row_duration_minutes := 60; row_appointment_type := "general";
         row_location := None; row_notes := None;
         row_status := "pending" |} ]
  /\ appointments
       (snd (_extract_appointment_data monday_midnight "Book a visit tomorrow"
               "" 7 empty_db))
     <> appointments empty_db.
Proof. split; vm_compute; [reflexivity | discriminate]. Qed.

(** C6, amended: when the decision is negative the pipeline returns
    [None] and touches neither table nor log.  When it is positive and
    the details parse, the pipeline itself runs the insert.  If the
    insert goes through (a connection is made, no text field holds a
    NUL, the server raises no error) the table has one new row, with
    status pending, and the draft is returned with the row's id (a row
    given id 0 is inserted and [None] returned).  If the insert raises,
    the error is logged, [None] is returned and the table is as
    before. *)
Theorem C6_pipeline_inserts_the_draft
    (now : datetime) (user_message bot_response : string) (user_id : Z)
    (w : world) :
  (should_create user_message bot_response = false ->
   _extract_appointment_data now user_message bot_response user_id w
   = (None, w))
  /\ (forall a,
        should_create user_message bot_response = true ->
        parse_appointment_details_body now user_message bot_response = Ok a ->
        db_up w = true -> has_nul_parameter a = false ->
        insert_error w = None ->
        appointments
          (snd (_extract_appointment_data now user_message bot_response
                  user_id w))
        = (appointments w ++ [row_of (next_id w) user_id a])%list
        /\ row_status (row_of (next_id w) user_id a) = "pending"
        /\ (next_id w <> 0 ->
            fst (_extract_appointment_data now user_message bot_response
                   user_id w)
            = Some (with_id (next_id w) a)))
  /\ (forall a,
        should_create user_message bot_response = true ->
        parse_appointment_details_body now user_message bot_response = Ok a ->
        db_up w = false \/ has_nul_parameter a = true
        \/ insert_error w <> None ->
        exists e,
          _extract_appointment_data now user_message bot_response user_id w
          = (None, log_append (LogError "Error creating appointment" e) w)
          /\ appointments
               (log_append (LogError "Error creating appointment" e) w)
             = appointments w).
Proof.
  split; [apply extract_not_corroborated|]. split.
  - intros a S P U N X.
    assert (F : insert_failure a w = None) by (now apply insert_failure_none).
    rewrite (extract_creates _ _ _ _ _ a S P F). cbn [fst snd appointments].
    split; [reflexivity|]. split; [reflexivity|].
    intros Z. apply Z.eqb_neq in Z. now rewrite Z.
  - intros a S P H.
    destruct (insert_failure a w) as [e|] eqn:F.
    + exists e. split; [now apply extract_insert_fails with a | reflexivity].
    + apply insert_failure_none in F as (U & N & X).
      destruct H as [H|[H|H]]; congruence.
Qed.

Lemma C6_witness :
  _extract_appointment_data monday_midnight "Hello" "I can schedule that" 7
    empty_db
  = (None, empty_db)
  /\ appointments
       (snd (_extract_appointment_data monday_midnight "Book a visit tomorrow"
               "" 7 empty_db))
     = (appointments empty_db
        ++ [row_of 1 7
              {| title := "Appointment"; description := "Book a visit tomorrow";
                 appointment_type := "general"; duration_minutes := 60;
                 location := None; notes := None;
                 appointment_date := "2024-01-02T10:00:00"; id := None |}])%list
  /\ exists e,
       _extract_appointment_data monday_midnight
         (String Ascii.zero "Book a visit tomorrow") "" 7 empty_db
       = (None, log_append (LogError "Error creating appointment" e) empty_db)
       /\ appointments
            (log_append (LogError "Error creating appointment" e) empty_db)
          = appointments empty_db.
Proof.
  split; [|split].
  - apply (proj1 (C6_pipeline_inserts_the_draft monday_midnight "Hello"
                    "I can schedule that" 7 empty_db)).
    vm_compute. reflexivity.
  - apply (proj1 (proj2 (C6_pipeline_inserts_the_draft monday_midnight
                           "Book a visit tomorrow" "" 7 empty_db))).
    + vm_compute. reflexivity.
    + vm_compute. reflexivity.
    + reflexivity.
    + reflexivity.
    + reflexivity.
  - apply (proj2 (proj2 (C6_pipeline_inserts_the_draft monday_midnight
                           (String Ascii.zero "Book a visit tomorrow") "" 7
                           empty_db))
             {| title := "Appointment";
                description := String Ascii.zero "Book a visit tomorrow";
                appointment_type := "general"; duration_minutes := 60;
                location := None; notes := None;
                appointment_date := "2024-01-02T10:00:00"; id := None |}).
    + vm_compute. reflexivity.
    + vm_compute. reflexivity.
    + right. left. vm_compute. reflexivity.
Defined.

(** A NUL in the user message: the draft parses, [execute] raises, the
    error is logged and no row is written, with the database up. *)
Example nul_in_message_is_refused :
  _extract_appointment_data monday_midnight
    (String Ascii.zero "Book a visit tomorrow") "" 7 empty_db
  = (None,
     log_append (LogError "Error creating appointment" ValueError) empty_db).
Proof. vm_compute. reflexivity. Qed.

(** A constraint the server enforces: same outcome, with its error. *)
Example server_refusal_is_logged :
  _extract_appointment_data monday_midnight "Book a visit tomorrow" "" 7
    {| db_up := true; insert_error := Some IntegrityError; next_id := 1;
       appointments := []; log := [] |}
  = (None,
     {| db_up := true; insert_error := Some IntegrityError; next_id := 1;
        appointments := [];
        log := [LogError "Error creating appointment" IntegrityError] |}).
Proof. vm_compute. reflexivity. Qed.

(** * Further properties of the service *)

(** ** What gets created, and what it leaves behind *)

Section Creation.

Variable now : datetime.
Variable user_message : string.
Variable user_id : Z.
Variable w : world.

Lemma details_ignore_the_reply (reply reply' : string) :
  parse_appointment_details_body now user_message reply
  = parse_appointment_details_body now user_message reply'.
Proof. reflexivity. Qed.

(** The four ways a call can end. *)
Lemma extract_cases (bot_response : string) :
  let run := _extract_appointment_data now user_message bot_response user_id w in
  (should_create user_message bot_response = false /\ run = (None, w))
  \/ (should_create user_message bot_response = true
      /\ exists e,
           parse_appointment_details_body now user_message bot_response = Raise e
           /\ run = (None,
                     log_append (LogError "Error parsing appointment details" e) w))
  \/ (should_create user_message bot_response = true
      /\ exists a e,
           parse_appointment_details_body now user_message bot_response = Ok a
           /\ insert_failure a w = Some e
           /\ run = (None,
                     log_append (LogError "Error creating appointment" e) w))
  \/ (should_create user_message bot_response = true
      /\ db_up w = true
      /\ exists a,
           parse_appointment_details_body now user_message bot_response = Ok a
           /\ insert_failure a w = None
           /\ run = (if next_id w =? 0 then None
                     else Some (with_id (next_id w) a),
                     {| db_up := db_up w; insert_error := insert_error w;
                        next_id := next_id w + 1;
                        appointments :=
                          appointments w ++ [row_of (next_id w) user_id a];
                        log := log w
                               ++ [LogInfo "Created appointment" (next_id w)
                                     user_id] |})).
Proof.
  cbv zeta.
  destruct (should_create user_message bot_response) eqn:S.
  - right.
    destruct (parse_appointment_details_body now user_message bot_response)
      as [a|e] eqn:P.
    + right. destruct (insert_failure a w) as [e|] eqn:F.
      * left. split; [reflexivity|]. exists a, e.
        split; [reflexivity|]. split; [exact F|].
        now apply extract_insert_fails with a.
      * right. split; [reflexivity|].
        split; [now apply insert_failure_none in F|]. exists a.
        split; [reflexivity|]. split; [exact F|]. now apply extract_creates.
    + left. split; [reflexivity|]. exists e. split; [reflexivity|].
      unfold should_create in S. apply andb_true_iff in S as [G C].
      unfold _extract_appointment_data, _parse_appointment_details.
      now rewrite G, C, P.
  - left. split; [reflexivity|]. now apply extract_not_corroborated.
Qed.

End Creation.

(** X1: a draft is returned only for a row that was written: the call
    passed the gate and the corroboration, the draft carries a non-zero
    id, and the table is the old table followed by exactly one row, which
    has that id, the caller's user id, the draft's own fields and status
    pending. *)
Theorem X1_returned_draft_is_the_inserted_row
    (now : datetime) (user_message bot_response : string) (user_id : Z)
    (w w' : world) (a : appointment_data) :
  _extract_appointment_data now user_message bot_response user_id w
  = (Some a, w') ->
  should_create user_message bot_response = true
  /\ db_up w = true
  /\ id a = Some (next_id w) /\ next_id w <> 0
  /\ description a = user_message
  /\ appointments w'
     = (appointments w ++ [row_of (next_id w) user_id a])%list
  /\ row_status (row_of (next_id w) user_id a) = "pending".
Proof.
  intros H.
  destruct (extract_cases now user_message user_id w bot_response)
    as [(_ & E)|[(_ & e & _ & E)
                |[(_ & a0 & e & _ & _ & E)|(S & U & a0 & P & _ & E)]]];
    cbv zeta in E; rewrite E in H; try discriminate.
  destruct (next_id w =? 0) eqn:N; [discriminate|].
  injection H as <- <-. apply Z.eqb_neq in N.
  repeat (split; [try reflexivity; try assumption|]); [|reflexivity].
  unfold parse_appointment_details_body in P.
  destruct (if any_in _ _ then _ else _) as [type label].
  apply bind_ok in P as (date & _ & P). now injection P as <-.
Qed.

Lemma X1_witness :
  should_create "Book a visit tomorrow" "" = true
  /\ db_up empty_db = true
  /\ id (with_id 1
           {| title := "Appointment"; description := "Book a visit tomorrow";
              appointment_type := "general"; duration_minutes := 60;
              location := None; notes := None;
              appointment_date := "2024-01-02T10:00:00"; id := None |})
     = Some (next_id empty_db)
  /\ next_id empty_db <> 0
  /\ description
       (with_id 1
          {| title := "Appointment"; description := "Book a visit tomorrow";
             appointment_type := "general"; duration_minutes := 60;
             location := None; notes := None;
             appointment_date := "2024-01-02T10:00:00"; id := None |})
     = "Book a visit tomorrow"
  /\ appointments
       (snd (_extract_appointment_data monday_midnight "Book a visit tomorrow"
               "" 7 empty_db))
     = (appointments empty_db
        ++ [row_of (next_id empty_db) 7
              (with_id 1
                 {| title := "Appointment";
                    description := "Book a visit tomorrow";
                    appointment_type := "general"; duration_minutes := 60;
                    location := None; notes := None;
                    appointment_date := "2024-01-02T10:00:00";
                    id := None |})])%list
  /\ row_status
       (row_of (next_id empty_db) 7
          (with_id 1
             {| title := "Appointment"; description := "Book a visit tomorrow";
                appointment_type := "general"; duration_minutes := 60;
                location := None; notes := None;
                appointment_date := "2024-01-02T10:00:00"; id := None |}))
     = "pending".
Proof.
  apply (X1_returned_draft_is_the_inserted_row monday_midnight
           "Book a visit tomorrow" "" 7 empty_db).
  vm_compute. reflexivity.
Defined.

(** X2: no call removes or changes a row or a log line: the table
    after the call is the table before it followed by at most one row,
    the log is the old log followed by at most one line, and the
    connection state is as before.  A row is added without a draft being
    returned only when the database handed out the id 0. *)
Theorem X2_extraction_only_appends
    (now : datetime) (user_message bot_response : string) (user_id : Z)
    (w : world) :
  let result := _extract_appointment_data now user_message bot_response
                  user_id w in
  exists rows lines,
    appointments (snd result) = (appointments w ++ rows)%list
    /\ log (snd result) = (log w ++ lines)%list
    /\ (List.length rows <= 1)%nat /\ (List.length lines <= 1)%nat
    /\ db_up (snd result) = db_up w
    /\ (rows = [] \/ fst result <> None \/ next_id w = 0).
Proof.
  cbv zeta.
  destruct (extract_cases now user_message user_id w bot_response)
    as [(_ & E)|[(_ & e & _ & E)
                |[(_ & a0 & e & _ & _ & E)|(S & U & a0 & P & _ & E)]]];
    cbv zeta in E; rewrite E; cbn [fst snd log_append appointments log db_up].
  - exists [], []. rewrite !app_nil_r. repeat split; auto.
  - exists [], [LogError "Error parsing appointment details" e].
    rewrite !app_nil_r. repeat split; auto.
  - exists [], [LogError "Error creating appointment" e].
    rewrite !app_nil_r. repeat split; auto.
  - exists [row_of (next_id w) user_id a0],
      [LogInfo "Created appointment" (next_id w) user_id].
    repeat split; auto. right.
    destruct (next_id w =? 0) eqn:N; [right; now apply Z.eqb_eq | left; discriminate].
Qed.

(** X3: the assistant's reply can switch creation on, never change
    what is created: for two replies to the same user message, either
    one of the two calls does nothing at all, or both calls return the
    same draft and leave the same table and log. *)
Theorem X3_reply_only_switches_creation_on
    (now : datetime) (user_message reply reply' : string) (user_id : Z)
    (w : world) :
  _extract_appointment_data now user_message reply user_id w = (None, w)
  \/ _extract_appointment_data now user_message reply' user_id w = (None, w)
  \/ _extract_appointment_data now user_message reply user_id w
     = _extract_appointment_data now user_message reply' user_id w.
Proof.
  unfold _extract_appointment_data.
  destruct (wants_to_schedule user_message); cbn [negb]; [|now left].
  destruct (has_details user_message); cbn [orb].
  - right. right. reflexivity.
  - destruct (bot_confirms reply); [|now left].
    destruct (bot_confirms reply'); [|right; now left].
    right. right. reflexivity.
Qed.

(** X4: some single words decide alone.  "consultation" and "checkup"
    are both scheduling keywords and detail keywords, so a user message
    containing either, in any case and inside any word, leads to
    creation whatever the assistant replied. *)
Theorem X4_consultation_or_checkup_decides_alone
    (user_message bot_response : string) :
  contains "consultation" (lower user_message) = true
  \/ contains "checkup" (lower user_message) = true ->
  should_create user_message bot_response = true.
Proof.
  intros H. unfold should_create, wants_to_schedule, has_details.
  destruct H as [H|H].
  - rewrite (any_in_member "consultation" appointment_keywords _
               ltac:(simpl; auto 10) H).
    rewrite (any_in_member "consultation" detail_keywords _
               ltac:(simpl; auto 20) H).
    reflexivity.
  - rewrite (any_in_member "checkup" appointment_keywords _
               ltac:(simpl; auto 10) H).
    rewrite (any_in_member "checkup" detail_keywords _
               ltac:(simpl; auto 20) H).
    reflexivity.
Qed.

Lemma X4_witness :
  should_create "Is a CHECKUP expensive?" "It depends." = true.
Proof.
  apply X4_consultation_or_checkup_decides_alone. right.
  vm_compute. reflexivity.
Defined.

(** ** The shape of the timestamp and of the draft *)

Section Shape.

Lemma length_append (a b : string) :
  String.length (a ++ b) = (String.length a + String.length b)%nat.
Proof. induction a as [|c a IH]; simpl; [reflexivity | now rewrite IH]. Qed.

Lemma zero_padded_length (width : nat) (n : Z) :
  String.length (zero_padded width n) = width.
Proof.
  revert n. induction width as [|width IH]; intros n; cbn [zero_padded].
  - reflexivity.
  - rewrite length_append, IH. simpl. lia.
Qed.

Lemma isoformat_whole_minute (d : datetime) :
  second d = 0 -> microsecond d = 0 ->
  exists front, isoformat d = front ++ ":00"
                /\ String.length front = 16%nat.
Proof.
  intros Hs Hu. unfold isoformat. rewrite Hs, Hu.
  destruct (ord2ymd (ordinal d)) as [[y mo] da].
  exists (zero_padded 4 y ++ "-" ++ zero_padded 2 mo ++ "-" ++ zero_padded 2 da
          ++ "T" ++ zero_padded 2 (hour d) ++ ":" ++ zero_padded 2 (minute d)).
  split.
  - change (0 =? 0) with true. cbv iota.
    change (zero_padded 2 0) with "00".
    rewrite !append_assoc. reflexivity.
  - rewrite !length_append, !zero_padded_length. reflexivity.
Qed.

(** What a matched clock pattern does is fixed by the match alone: it
    raises, or it sets one hour and one minute on whatever date it is
    given. *)
Lemma apply_match_shape (m : match_object) :
  (exists e, forall b, apply_match m b = Raise e)
  \/ (exists h mi, forall b, apply_match m b = replace_hm b h mi).
Proof.
  unfold apply_match.
  destruct (if has_char ":" (whole m) then _ else _) as [[[h mi] ampm]|e].
  - right. eexists. eexists. intros b. cbn [bind]. reflexivity.
  - left. exists e. intros b. reflexivity.
Qed.

Lemma apply_time_patterns_shape (patterns : list regex) (message_lower : string) :
  (forall b, apply_time_patterns patterns message_lower b = Ok b)
  \/ (exists e, forall b,
         apply_time_patterns patterns message_lower b = Raise e)
  \/ (exists h mi, forall b,
         apply_time_patterns patterns message_lower b = replace_hm b h mi).
Proof.
  induction patterns as [|pattern rest IH]; cbn [apply_time_patterns].
  - now left.
  - destruct (search pattern message_lower) as [m|]; [|exact IH].
    right. exact (apply_match_shape m).
Qed.

Lemma parse_date_time_value_clock (now : datetime) (user_message : string)
    (d : datetime) :
  parse_date_time_value now user_message = Ok d ->
  0 <= hour d <= 23 /\ 0 <= minute d <= 59.
Proof.
  intros H.
  apply parse_date_time_value_inv in H as (b & b' & Hb & Hb' & H & _).
  apply resolve_base_date_inv in Hb as (Eb & _).
  assert (R : 0 <= hour b' <= 23 /\ 0 <= minute b' <= 59).
  { destruct (apply_time_patterns_shape time_patterns (lower user_message))
      as [E|[(e & E)|(h & mi & E)]]; rewrite E in Hb'.
    - injection Hb' as <-. rewrite Eb. simpl. lia.
    - discriminate.
    - apply replace_hm_ok in Hb' as (-> & ? & ?). simpl. lia. }
  unfold apply_time_descriptions in H.
  destruct (contains "morning" (lower user_message));
    [|destruct (contains "afternoon" (lower user_message));
      [|destruct (contains "evening" (lower user_message))]];
    try (apply replace_hm_ok in H as (-> & ? & ?); simpl; lia).
  injection H as <-. exact R.
Qed.

Lemma parse_date_time_length (now : datetime) (user_message s : string) :
  _parse_date_time now user_message = Ok s -> String.length s = 19%nat.
Proof.
  unfold _parse_date_time. intros H. apply bind_ok in H as (d & Hd & H).
  injection H as <-.
  apply parse_date_time_value_inv in Hd as (_ & _ & _ & _ & _ & _ & Hs & Hu).
  destruct (isoformat_whole_minute d Hs Hu) as (front & E & L).
  rewrite E, length_append, L. reflexivity.
Qed.

End Shape.

(** X5: every timestamp the extractor returns is a whole minute with a
    valid clock: hour 0..23, minute 0..59, second and microsecond 0,
    whatever the clock fields of the reference time are.  Its text has
    19 characters and ends in ":00": no fraction is ever printed. *)
Theorem X5_timestamp_is_a_whole_minute
    (now : datetime) (user_message s : string) :
  _parse_date_time now user_message = Ok s ->
  exists d front,
    parse_date_time_value now user_message = Ok d
    /\ 0 <= hour d <= 23 /\ 0 <= minute d <= 59
    /\ second d = 0 /\ microsecond d = 0
    /\ s = front ++ ":00" /\ String.length front = 16%nat
    /\ String.length s = 19%nat.
Proof.
  unfold _parse_date_time. intros H. apply bind_ok in H as (d & Hd & H).
  injection H as <-.
  pose proof (parse_date_time_value_clock _ _ _ Hd) as (Rh & Rm).
  apply parse_date_time_value_inv in Hd as Hd'.
  destruct Hd' as (_ & _ & _ & _ & _ & _ & Hs & Hu).
  destruct (isoformat_whole_minute d Hs Hu) as (front & E & L).
  exists d, front. repeat (split; [assumption|]).
  rewrite E, length_append, L. reflexivity.
Qed.

Lemma X5_witness :
  exists d front,
    parse_date_time_value
      {| ordinal := 738886; hour := 23; minute := 59; second := 58;
         microsecond := 999999 |} "today at 7:05 pm" = Ok d
    /\ 0 <= hour d <= 23 /\ 0 <= minute d <= 59
    /\ second d = 0 /\ microsecond d = 0
    /\ "2024-01-01T19:05:00" = front ++ ":00" /\ String.length front = 16%nat
    /\ String.length "2024-01-01T19:05:00" = 19%nat.
Proof.
  apply (X5_timestamp_is_a_whole_minute
           {| ordinal := 738886; hour := 23; minute := 59; second := 58;
              microsecond := 999999 |} "today at 7:05 pm").
  vm_compute. reflexivity.
Defined.

(** X6: every draft that is built has one of the four type and title
    pairs, a duration of 30, 45, 60, 90 or 120 minutes, the user message
    unchanged as its description, no location, no notes, no id yet, and
    a date of 19 characters. *)
Theorem X6_draft_fields
    (now : datetime) (user_message bot_response : string)
    (a : appointment_data) :
  parse_appointment_details_body now user_message bot_response = Ok a ->
  In (appointment_type a, title a)
    [("medical", "Medical Appointment"); ("consultation", "Consultation");
     ("follow-up", "Follow-up Appointment"); ("general", "Appointment")]
  /\ In (duration_minutes a) [30; 45; 60; 90; 120]
  /\ description a = user_message
  /\ location a = None /\ notes a = None /\ id a = None
  /\ String.length (appointment_date a) = 19%nat.
Proof.
  unfold parse_appointment_details_body. intros H.
  assert (T : In (if any_in ["medical"; "doctor"; "checkup"; "health"]
                       (lower user_message)
                  then ("medical", "Medical Appointment")
                  else if any_in ["consultation"; "consult"] (lower user_message)
                  then ("consultation", "Consultation")
                  else if any_in ["follow"; "follow-up"] (lower user_message)
                  then ("follow-up", "Follow-up Appointment")
                  else ("general", "Appointment"))
                [("medical", "Medical Appointment");
                 ("consultation", "Consultation");
                 ("follow-up", "Follow-up Appointment");
                 ("general", "Appointment")]).
  { destruct (any_in ["medical"; "doctor"; "checkup"; "health"] _);
      [|destruct (any_in ["consultation"; "consult"] _);
        [|destruct (any_in ["follow"; "follow-up"] _)]];
      simpl; auto 10. }
  destruct (if any_in ["medical"; "doctor"; "checkup"; "health"] _ then _ else _)
    as [type label].
  apply bind_ok in H as (date & Hd & H). injection H as <-.
  cbn [appointment_type title duration_minutes description location notes id
       appointment_date].
  split; [exact T|]. split.
  - destruct (_ || _); [simpl; auto 10|].
    destruct (contains "45 minutes" _); [simpl; auto 10|].
    destruct (_ || _); [simpl; auto 10|].
    destruct (_ || _); simpl; auto 10.
  - repeat (split; [reflexivity|]).
    now apply parse_date_time_length in Hd.
Qed.

Lemma X6_witness :
  In ("medical", "Medical Appointment")
    [("medical", "Medical Appointment"); ("consultation", "Consultation");
     ("follow-up", "Follow-up Appointment"); ("general", "Appointment")]
  /\ In 90 [30; 45; 60; 90; 120]
  /\ "A 1.5 hours consultation with the Doctor" = "A 1.5 hours consultation with the Doctor"
  /\ @None string = None /\ @None string = None /\ @None Z = None
  /\ String.length "2024-01-02T10:00:00" = 19%nat.
Proof.
  apply (X6_draft_fields monday_midnight
           "A 1.5 hours consultation with the Doctor" ""
           {| title := "Medical Appointment";
              description := "A 1.5 hours consultation with the Doctor";
              appointment_type := "medical"; duration_minutes := 90;
              location := None; notes := None;
              appointment_date := "2024-01-02T10:00:00"; id := None |}).
  vm_compute. reflexivity.
Defined.

(** ** Type rules *)

Lemma contains_inside (inner outer s : string) :
  contains inner outer = true -> contains outer s = true ->
  contains inner s = true.
Proof.
  intros Hi Ho.
  apply contains_iff in Hi as (a & b & ->), Ho as (pre & post & ->).
  apply contains_iff. exists (pre ++ a), (b ++ post).
  now rewrite !append_assoc.
Qed.

Lemma any_in_pair_with_part (whole part s : string) :
  contains part whole = true ->
  any_in [whole; part] s = contains part s
  /\ any_in [part; whole] s = contains part s.
Proof.
  intros H. unfold any_in. cbn [existsb]. rewrite !orb_false_r.
  destruct (contains whole s) eqn:W.
  - rewrite (contains_inside _ _ _ H W). split; reflexivity.
  - split; [reflexivity | apply orb_false_r].
Qed.

(** X7: the type of a draft is decided by four tests in a fixed order:
    medical if the lowered message contains "medical", "doctor",
    "checkup" or "health"; otherwise consultation if it contains
    "consult"; otherwise follow-up if it contains "follow"; otherwise
    general.  The longer entries "consultation" and "follow-up" of the
    source's lists add nothing, and the title follows the type. *)
Theorem X7_type_rules
    (now : datetime) (user_message bot_response : string)
    (a : appointment_data) :
  parse_appointment_details_body now user_message bot_response = Ok a ->
  (appointment_type a, title a)
  = (if any_in ["medical"; "doctor"; "checkup"; "health"] (lower user_message)
     then ("medical", "Medical Appointment")
     else if contains "consult" (lower user_message)
     then ("consultation", "Consultation")
     else if contains "follow" (lower user_message)
     then ("follow-up", "Follow-up Appointment")
     else ("general", "Appointment")).
Proof.
  unfold parse_appointment_details_body.
  rewrite (proj1 (any_in_pair_with_part "consultation" "consult"
                    (lower user_message) eq_refl)).
  rewrite (proj2 (any_in_pair_with_part "follow-up" "follow"
                    (lower user_message) eq_refl)).
  destruct (if any_in ["medical"; "doctor"; "checkup"; "health"] _ then _ else _)
    as [type label].
  intros H. apply bind_ok in H as (date & _ & H). now injection H as <-.
Qed.

Lemma X7_witness :
  ("medical", "Medical Appointment")
  = (if any_in ["medical"; "doctor"; "checkup"; "health"]
          (lower "Follow-up consultation about my health")
     then ("medical", "Medical Appointment")
     else if contains "consult" (lower "Follow-up consultation about my health")
     then ("consultation", "Consultation")
     else if contains "follow" (lower "Follow-up consultation about my health")
     then ("follow-up", "Follow-up Appointment")
     else ("general", "Appointment")).
Proof.
  apply (X7_type_rules monday_midnight
           "Follow-up consultation about my health" ""
           {| title := "Medical Appointment";
              description := "Follow-up consultation about my health";
              appointment_type := "medical"; duration_minutes := 60;
              location := None; notes := None;
              appointment_date := "2024-01-02T10:00:00"; id := None |}).
  vm_compute. reflexivity.
Defined.

(** ** The reference time *)

Section ReferenceTime.

Lemma resolve_base_date_same_day (now now' : datetime) (message_lower : string) :
  ordinal now = ordinal now' ->
  resolve_base_date now message_lower = resolve_base_date now' message_lower.
Proof.
  intros E. unfold resolve_base_date, add_days, weekday. rewrite E.
  destruct ((1 <=? ordinal now' + 1) && (ordinal now' + 1 <=? MAXORDINAL));
    cbn [bind]; [|reflexivity].
  rewrite !replace_ten. cbn [bind ordinal]. rewrite E.
  destruct (contains "today" message_lower);
    [|destruct (contains "tomorrow" message_lower)]; cbn [bind];
    (destruct (find _ days_of_week) as [[name day_num]|]; [|reflexivity]);
    match goal with
    | |- context [if ?c then _ else _] => destruct c
    end; cbn [bind]; reflexivity.
Qed.

(** After a base date at 10:00:00, the clock phase and the description
    phase succeed or fail, and choose hour and minute, by the message
    alone. *)
Lemma time_of_day_by_message (message_lower : string) :
  (exists e, forall o,
      (b <- apply_time_patterns time_patterns message_lower (at_ten o) ;;
       apply_time_descriptions message_lower b) = Raise e)
  \/ (exists h mi, forall o,
         (b <- apply_time_patterns time_patterns message_lower (at_ten o) ;;
          apply_time_descriptions message_lower b)
         = Ok {| ordinal := o; hour := h; minute := mi;
                 second := 0; microsecond := 0 |}).
Proof.
  assert (D : forall h mi,
             0 <= h <= 23 -> 0 <= mi <= 59 ->
             exists h' mi', forall o,
               apply_time_descriptions message_lower
                 {| ordinal := o; hour := h; minute := mi;
                    second := 0; microsecond := 0 |}
               = Ok {| ordinal := o; hour := h'; minute := mi';
                       second := 0; microsecond := 0 |}).
  { intros h mi Hh Hm. unfold apply_time_descriptions.
    destruct (contains "morning" message_lower);
      [|destruct (contains "afternoon" message_lower);
        [|destruct (contains "evening" message_lower)]];
      eexists; eexists; intros o; reflexivity. }
  destruct (apply_time_patterns_shape time_patterns message_lower)
    as [E|[(e & E)|(h & mi & E)]].
  - right. destruct (D 10 0 ltac:(lia) ltac:(lia)) as (h' & mi' & Hd).
    exists h', mi'. intros o. rewrite E. cbn [bind]. apply Hd.
  - left. exists e. intros o. now rewrite E.
  - destruct (in_range 0 23 h && in_range 0 59 mi) eqn:R.
    + right. apply andb_true_iff in R as [Rh Rm]. unfold in_range in Rh, Rm.
      apply andb_true_iff in Rh as [? ?], Rm as [? ?].
      destruct (D h mi ltac:(lia) ltac:(lia)) as (h' & mi' & Hd).
      exists h', mi'. intros o. rewrite E.
      rewrite replace_hm_in_range by (reflexivity || lia). cbn [bind]. apply Hd.
    + left. exists ValueError. intros o. rewrite E.
      unfold replace_hm, replace. cbn [at_ten second microsecond].
      replace (in_range 0 23 h && in_range 0 59 mi && in_range 0 59 0
               && in_range 0 999999 0) with false
        by (rewrite R; reflexivity).
      reflexivity.
Qed.

End ReferenceTime.

(** X8: only the date of the reference time matters.  Two reference
    times on the same day give the same outcome, timestamp or exception,
    for every message: the hour, minute, second and microsecond at which
    the call is made are never read. *)
Theorem X8_reference_clock_is_ignored
    (now now' : datetime) (user_message : string) :
  ordinal now = ordinal now' ->
  _parse_date_time now user_message = _parse_date_time now' user_message.
Proof.
  intros E. unfold _parse_date_time, parse_date_time_value.
  now rewrite (resolve_base_date_same_day now now' _ E).
Qed.

Lemma X8_witness :
  _parse_date_time monday_midnight "Checkup on Friday at 3pm"
  = _parse_date_time monday_afternoon "Checkup on Friday at 3pm".
Proof.
  apply X8_reference_clock_is_ignored. vm_compute. reflexivity.
Defined.

(** X9: the time of day comes from the message alone.  If the
    extractor returns timestamps for one message at two reference times,
    whatever their dates, the two timestamps have the same hour and
    minute. *)
Theorem X9_time_of_day_depends_on_the_message_only
    (now now' : datetime) (user_message : string) (d d' : datetime) :
  parse_date_time_value now user_message = Ok d ->
  parse_date_time_value now' user_message = Ok d' ->
  hour d = hour d' /\ minute d = minute d'.
Proof.
  unfold parse_date_time_value. intros H H'.
  apply bind_ok in H as (b & Hb & H), H' as (b' & Hb' & H').
  apply resolve_base_date_inv in Hb as (Eb & _), Hb' as (Eb' & _).
  rewrite Eb in H. rewrite Eb' in H'.
  destruct (time_of_day_by_message (lower user_message))
    as [(e & E)|(h & mi & E)].
  - rewrite E in H. discriminate.
  - rewrite E in H, H'. injection H as <-. injection H' as <-. now split.
Qed.

Lemma X9_witness :
  hour (make 2024 1 5 15 0 0) = hour (make 2024 3 1 15 0 0)
  /\ minute (make 2024 1 5 15 0 0) = minute (make 2024 3 1 15 0 0).
Proof.
  apply (X9_time_of_day_depends_on_the_message_only
           monday_midnight (make 2024 2 29 8 30 0) "Checkup on Friday at 3pm").
  - vm_compute. reflexivity.
  - vm_compute. reflexivity.
Defined.

(** X10: a message without any digit is always parsed: for a reference
    day at least 7 days before the last day [datetime] can hold,
    [_parse_appointment_details] returns a draft and logs nothing.  The
    exceptions of the clock patterns need a digit in the message. *)
Theorem X10_messages_without_digits_always_parse
    (now : datetime) (user_message bot_response : string) (w : world) :
  1 <= ordinal now -> ordinal now + 7 <= MAXORDINAL ->
  digit_free user_message = true ->
  exists a,
    _parse_appointment_details now user_message bot_response w = (Some a, w)
    /\ description a = user_message.
Proof.
  intros Hlow Hhigh D.
  destruct (parse_date_time_value_without_digits now user_message Hlow Hhigh D)
    as (d & Hd & _).
  unfold _parse_appointment_details, parse_appointment_details_body,
    _parse_date_time.
  rewrite Hd. cbn [bind].
  destruct (if any_in ["medical"; "doctor"; "checkup"; "health"] _ then _ else _)
    as [type label].
  eexists. split; reflexivity.
Qed.

Lemma X10_witness :
  exists a,
    _parse_appointment_details monday_midnight
      "Book a checkup on Friday evening" "" empty_db = (Some a, empty_db)
    /\ description a = "Book a checkup on Friday evening".
Proof.
  apply X10_messages_without_digits_always_parse.
  - vm_compute. discriminate.
  - vm_compute. discriminate.
  - vm_compute. reflexivity.
Defined.

(** ** How the clock patterns read a message *)

Section ClockPatterns.

Lemma or_else_none {R : Type} (a : option R) : or_else a None = a.
Proof. now destruct a. Qed.

Lemma take_append (a b : string) : take (String.length a) (a ++ b) = a.
Proof. induction a as [|c a IH]; simpl; [now destruct b | now rewrite IH]. Qed.

Lemma drop_append (a b : string) : drop (String.length a) (a ++ b) = b.
Proof. induction a as [|c a IH]; simpl; [now destruct b | exact IH]. Qed.

Lemma space_is_no_digit (c : ascii) : space c = true -> digit c = false.
Proof.
  destruct c as [[] [] [] [] [] [] [] []]; vm_compute; congruence.
Qed.

(** A repetition that has reached its upper bound stops where it is. *)
Lemma repeat_at_limit {R : Type} (p : ascii -> bool) (lo pos : nat)
    (s : string) (c : captures) (k : cont R) :
  repeat_greedy p lo (Some O) pos s c k
  = match lo with O => k pos s c | S _ => None end.
Proof.
  destruct s as [|a s]; cbn [repeat_greedy]; [reflexivity|].
  cbn [may_repeat]. now rewrite andb_false_r.
Qed.

(** One or two digits, then something that is not a digit: the hour
    group takes them all. *)
Lemma run_hour_group {R : Type} (n : nat) (hs t : string) (pos : nat)
    (c : captures) (k : cont R) (x : R) :
  all_chars digit hs = true ->
  String.length hs = 1%nat \/ String.length hs = 2%nat ->
  not_starting_with digit t = true ->
  k (pos + String.length hs)%nat t (capture n hs c) = Some x ->
  run (Group n hour_digits) pos (hs ++ t) c k = Some x.
Proof.
  intros D L T K. cbn [run hour_digits].
  destruct hs as [|d1 [|d2 [|d3 hs]]]; cbn in L;
    try (destruct L; discriminate).
  - cbn [all_chars] in D. rewrite andb_true_r in D.
    cbn [append repeat_greedy]. rewrite D. cbn [may_repeat andb pred one_less].
    assert (E : forall (k' : cont R),
               repeat_greedy digit 0 (Some 1%nat) (S pos) t c k'
               = k' (S pos) t c).
    { intros k'. destruct t as [|a t]; cbn [repeat_greedy]; [reflexivity|].
      cbn in T. apply negb_true_iff in T. now rewrite T. }
    rewrite E, or_else_none.
    replace (S pos - pos)%nat with 1%nat by lia. cbn [take].
    cbn in K. replace (pos + 1)%nat with (S pos) in K by lia. exact K.
  - cbn [all_chars] in D. apply andb_true_iff in D as [D1 D2].
    rewrite andb_true_r in D2.
    cbn [append repeat_greedy]. rewrite D1, D2.
    cbn [may_repeat andb pred one_less]. rewrite repeat_at_limit.
    replace (S (S pos) - pos)%nat with 2%nat by lia. cbn [take].
    cbn in K. replace (pos + 2)%nat with (S (S pos)) in K by lia.
    rewrite K. reflexivity.
Qed.

(** Exactly two digits for the minute group. *)
Lemma run_minute_group {R : Type} (n : nat) (ms t : string) (pos : nat)
    (c : captures) (k : cont R) :
  all_chars digit ms = true -> String.length ms = 2%nat ->
  run (Group n (Repeat digit 2 (Some 2%nat))) pos (ms ++ t) c k
  = k (pos + 2)%nat t (capture n ms c).
Proof.
  intros D L. destruct ms as [|m1 [|m2 [|m3 ms]]]; try discriminate.
  cbn [all_chars] in D. apply andb_true_iff in D as [D1 D2].
  rewrite andb_true_r in D2.
  cbn [run append repeat_greedy]. rewrite D1, D2.
  cbn [may_repeat andb pred one_less]. rewrite repeat_at_limit.
  rewrite !or_else_none.
  replace (S (S pos) - pos)%nat with 2%nat by lia. cbn [take].
  replace (pos + 2)%nat with (S (S pos)) by lia. reflexivity.
Qed.

(** A run of white space before something that is not white space is
    taken whole, when the rest of the pattern matches after it. *)
Lemma run_spaces {R : Type} (ws t : string) (pos : nat) (c : captures)
    (k : cont R) (x : R) :
  all_chars space ws = true ->
  not_starting_with space t = true ->
  k (pos + String.length ws)%nat t c = Some x ->
  run spaces pos (ws ++ t) c k = Some x.
Proof.
  cbn [run spaces]. revert pos.
  induction ws as [|a ws IH]; intros pos W T K.
  - cbn [append]. cbn in K. rewrite Nat.add_0_r in K.
    destruct t as [|b t]; cbn [repeat_greedy]; [exact K|].
    cbn in T. apply negb_true_iff in T. now rewrite T.
  - cbn [all_chars] in W. apply andb_true_iff in W as [Wa W].
    cbn [append repeat_greedy]. rewrite Wa.
    cbn [may_repeat andb pred one_less].
    rewrite (IH (S pos) W T); [reflexivity|].
    cbn in K. now rewrite Nat.add_succ_r in K.
Qed.

(** The search passes over a stretch without digits. *)
Lemma search_skips_digit_free (n : nat) (rest : regex) (pre s : string) :
  digit_free pre = true ->
  search (Seq (Group n hour_digits) rest) (pre ++ s)
  = search (Seq (Group n hour_digits) rest) s.
Proof.
  induction pre as [|a pre IH]; cbn [digit_free append]; intros D;
    [reflexivity|].
  apply andb_true_iff in D as [Da D]. apply negb_true_iff in Da.
  cbn [search]. unfold match_here at 1.
  rewrite hour_digits_need_a_digit by exact Da. cbn [or_else]. now apply IH.
Qed.

Lemma has_colon_after (hs t : string) (n : nat) :
  (String.length hs < n)%nat ->
  has_char ":" (take n (hs ++ String ":" t)) = true.
Proof.
  revert n. induction hs as [|a hs IH]; intros n L.
  - destruct n; [cbn in L; lia|]. reflexivity.
  - destruct n; [cbn in L; lia|]. cbn [append take has_char].
    rewrite IH by (cbn in L; lia). apply orb_true_r.
Qed.

End ClockPatterns.

Section ClockSteps.

Lemma run_seq {R : Type} (r1 r2 : regex) (pos : nat) (s : string)
    (c : captures) (k : cont R) :
  run (Seq r1 r2) pos s c k
  = run r1 pos s c (fun pos' s' c' => run r2 pos' s' c' k).
Proof. reflexivity. Qed.

Lemma run_group {R : Type} (n : nat) (r : regex) (pos : nat) (s : string)
    (c : captures) (k : cont R) :
  run (Group n r) pos s c k
  = run r pos s c
      (fun pos' s' c' => k pos' s' (capture n (take (pos' - pos) s) c')).
Proof. reflexivity. Qed.

Lemma run_alt {R : Type} (r1 r2 : regex) (pos : nat) (s : string)
    (c : captures) (k : cont R) :
  run (Alt r1 r2) pos s c k = or_else (run r1 pos s c k) (run r2 pos s c k).
Proof. reflexivity. Qed.

Lemma run_opt {R : Type} (r : regex) (pos : nat) (s : string)
    (c : captures) (k : cont R) :
  run (Opt r) pos s c k = or_else (run r pos s c k) (k pos s c).
Proof. reflexivity. Qed.

Lemma run_str {R : Type} (lit t : string) (pos : nat) (c : captures)
    (k : cont R) :
  run (Str lit) pos (lit ++ t) c k = k (pos + String.length lit)%nat t c.
Proof. cbn [run]. now rewrite prefix_append, drop_append. Qed.

Lemma run_str_mismatch {R : Type} (lit s : string) (pos : nat) (c : captures)
    (k : cont R) :
  String.prefix lit s = false -> run (Str lit) pos s c k = None.
Proof. intros H. cbn [run]. now rewrite H. Qed.

Lemma run_group_am_pm {R : Type} (n : nat) (ap t : string) (pos : nat)
    (c : captures) (k : cont R) (x : R) :
  ap = "am" \/ ap = "pm" ->
  k (pos + 2)%nat t (capture n ap c) = Some x ->
  run (Group n am_pm) pos (ap ++ t) c k = Some x.
Proof.
  intros A K. rewrite run_group. unfold am_pm. rewrite run_alt.
  assert (T : take (pos + 2 - pos) (ap ++ t) = ap).
  { replace (pos + 2 - pos)%nat with 2%nat by lia.
    destruct A as [-> | ->]; reflexivity. }
  destruct A as [-> | ->].
  - rewrite run_str. cbn [String.length]. rewrite T, K. reflexivity.
  - rewrite run_str_mismatch by reflexivity. rewrite run_str.
    cbn [String.length or_else]. rewrite T. exact K.
Qed.

Lemma run_group_am_pm_absent {R : Type} (n : nat) (s : string) (pos : nat)
    (c : captures) (k : cont R) :
  String.prefix "am" s = false -> String.prefix "pm" s = false ->
  run (Group n am_pm) pos s c k = None.
Proof.
  intros A P. rewrite run_group. unfold am_pm. rewrite run_alt.
  now rewrite !run_str_mismatch by assumption.
Qed.

Lemma search_found (r : regex) (s : string) (x : match_object) :
  match_here r s = Some x -> search r s = Some x.
Proof. intros H. destruct s; cbn [search]; rewrite H; reflexivity. Qed.

(** What the loop body does with a match of the colon pattern. *)
Lemma apply_match_colon (x : match_object) (hs ms : string)
    (g3 : option string) (h m : Z) (b : datetime) :
  has_char ":" (whole x) = true -> group_count x = 3%nat ->
  groups x 1%nat = Some hs -> groups x 2%nat = Some ms ->
  groups x 3%nat = g3 ->
  int (Some hs) = Ok h -> int (Some ms) = Ok m ->
  apply_match x b
  = replace_hm b
      (match g3 with
       | Some ap => if truthy g3 then to_24_hour h (lower ap) else h
       | None => h
       end) m.
Proof.
  intros Hc Hn H1 H2 H3 Vh Vm. unfold apply_match, group.
  rewrite Hc, Hn. cbn [Nat.leb Nat.ltb bind]. rewrite H1, H2, H3, Vh, Vm.
  cbn [bind]. unfold to_24_hour.
  destruct g3 as [ap|]; [|reflexivity].
  cbn [lower_of]. destruct (truthy (Some ap)); reflexivity.
Qed.

(** What it does with a match of a pattern without colon and with [n]
    groups. *)
Lemma apply_match_plain (x : match_object) (hs : string) (h : Z)
    (b : datetime) :
  has_char ":" (whole x) = false ->
  groups x 1%nat = Some hs -> int (Some hs) = Ok h ->
  (group_count x = 1%nat -> apply_match x b = replace_hm b h 0)
  /\ (forall ap, group_count x = 2%nat -> groups x 2%nat = Some ap ->
                 ap = "am" \/ ap = "pm" ->
                 apply_match x b = replace_hm b (to_24_hour h ap) 0).
Proof.
  intros Hc H1 Vh. unfold apply_match, group. rewrite Hc. split.
  - intros Hn. rewrite Hn. cbn [Nat.leb Nat.ltb bind]. rewrite H1, Vh. reflexivity.
  - intros ap Hn H2 A. rewrite Hn. cbn [Nat.leb Nat.ltb bind]. rewrite H1, H2, Vh.
    cbn [bind]. destruct A as [-> | ->]; reflexivity.
Qed.

End ClockSteps.

Section ColonPattern.

Variables pre hs ms ws rest : string.
Variables h m : Z.
Hypothesis pre_free : digit_free pre = true.
Hypothesis hs_digits : all_chars digit hs = true.
Hypothesis hs_length : String.length hs = 1%nat \/ String.length hs = 2%nat.
Hypothesis ms_digits : all_chars digit ms = true.
Hypothesis ms_length : String.length ms = 2%nat.
Hypothesis ws_spaces : all_chars space ws = true.
Hypothesis hs_value : int (Some hs) = Ok h.
Hypothesis ms_value : int (Some ms) = Ok m.

Lemma colon_pattern_am_pm (ap : string) (b : datetime) :
  ap = "am" \/ ap = "pm" ->
  apply_time_patterns time_patterns
    (pre ++ hs ++ ":" ++ ms ++ ws ++ ap ++ rest) b
  = replace_hm b (to_24_hour h ap) m.
Proof.
  intros A. unfold time_patterns. cbn [apply_time_patterns].
  rewrite search_skips_digit_free by exact pre_free.
  erewrite search_found.
  2:{ unfold match_here. rewrite run_seq.
      apply run_hour_group; [exact hs_digits | exact hs_length | reflexivity |].
      rewrite run_seq. unfold colon at 1. rewrite run_str.
      rewrite run_seq. rewrite run_minute_group by assumption.
      rewrite run_seq.
      apply run_spaces; [exact ws_spaces | destruct A; subst; reflexivity |].
      rewrite run_opt.
      erewrite run_group_am_pm; [reflexivity | exact A | reflexivity]. }
  rewrite (apply_match_colon _ hs ms (Some ap) h m b);
    try reflexivity; try assumption.
  - destruct A as [-> | ->]; reflexivity.
  - cbn [whole]. apply has_colon_after. cbn [String.length]. lia.
Qed.

Lemma colon_pattern_24_hour (b : datetime) :
  not_starting_with space rest = true ->
  String.prefix "am" rest = false -> String.prefix "pm" rest = false ->
  apply_time_patterns time_patterns (pre ++ hs ++ ":" ++ ms ++ ws ++ rest) b
  = replace_hm b h m.
Proof.
  intros T A P. unfold time_patterns. cbn [apply_time_patterns].
  rewrite search_skips_digit_free by exact pre_free.
  erewrite search_found.
  2:{ unfold match_here. rewrite run_seq.
      apply run_hour_group; [exact hs_digits | exact hs_length | reflexivity |].
      rewrite run_seq. unfold colon at 1. rewrite run_str.
      rewrite run_seq. rewrite run_minute_group by assumption.
      rewrite run_seq.
      apply run_spaces; [exact ws_spaces | exact T |].
      rewrite run_opt.
      rewrite run_group_am_pm_absent by assumption. reflexivity. }
  rewrite (apply_match_colon _ hs ms None h m b);
    try reflexivity; try assumption.
  cbn [whole]. apply has_colon_after. cbn [String.length]. lia.
Qed.

End ColonPattern.

Section WithoutColon.

(** A pattern whose continuation fails on every tail of the subject
    fails, however many characters the repetition takes. *)
Lemma repeat_greedy_none {R : Type} (Q : string -> Prop) (p : ascii -> bool)
    (k : cont R) :
  (forall a s, Q (String a s) -> Q s) ->
  (forall pos s c, Q s -> k pos s c = None) ->
  forall s lo hi pos c, Q s -> repeat_greedy p lo hi pos s c k = None.
Proof.
  intros tail K. induction s as [|a s IH]; intros lo hi pos c q;
    cbn [repeat_greedy].
  - destruct lo; [now apply K | reflexivity].
  - assert (E : match lo with O => k pos (String a s) c | S _ => None end = None)
      by (destruct lo; [now apply K | reflexivity]).
    rewrite E. destruct (p a && may_repeat hi); [|reflexivity].
    rewrite IH by (now apply tail with a). reflexivity.
Qed.

Lemma colon_free_tail (a : ascii) (s : string) :
  colon_free (String a s) -> colon_free s.
Proof. unfold colon_free. cbn [has_char]. now intros H%orb_false_iff. Qed.

Lemma am_pm_free_tail (a : ascii) (s : string) :
  am_pm_free (String a s) -> am_pm_free s.
Proof.
  unfold am_pm_free. cbn [contains].
  intros [A%orb_false_iff P%orb_false_iff]. tauto.
Qed.

Lemma colon_free_prefix (s : string) :
  colon_free s -> String.prefix ":" s = false.
Proof.
  unfold colon_free. destruct s as [|a s]; [reflexivity|].
  cbn [has_char String.prefix]. intros H%orb_false_iff.
  destruct H as [H _]. destruct (ascii_dec ":" a) as [<-|_]; [|reflexivity].
  discriminate.
Qed.

Lemma am_pm_free_prefix (s : string) :
  am_pm_free s -> String.prefix "am" s = false /\ String.prefix "pm" s = false.
Proof.
  unfold am_pm_free. intros [A P].
  destruct s as [|a s]; cbn [contains] in A, P.
  - split; reflexivity.
  - apply orb_false_iff in A, P. tauto.
Qed.

(** Without a colon in the message the first pattern finds nothing. *)
Lemma colon_pattern_needs_a_colon (s : string) :
  colon_free s -> search (nth 0 time_patterns (Str "")) s = None.
Proof.
  cbn [nth time_patterns].
  assert (M : forall s, colon_free s ->
                        match_here
                          (Seq (Group 1 hour_digits)
                             (Seq colon
                                (Seq (Group 2 (Repeat digit 2 (Some 2%nat)))
                                   (Seq spaces (Opt (Group 3 am_pm)))))) s
                        = None).
  { intros t Q. unfold match_here. rewrite run_seq, run_group.
    unfold hour_digits. cbn [run].
    apply repeat_greedy_none with (Q := colon_free);
      [exact colon_free_tail | | exact Q].
    intros pos s' c Q'. unfold colon.
    apply run_str_mismatch. now apply colon_free_prefix. }
  induction s as [|a s IH]; intros Q; cbn [search]; rewrite (M _ Q);
    cbn [or_else]; [reflexivity|].
  apply IH. now apply colon_free_tail with a.
Qed.

(** Without "am" and "pm" in the message the second finds nothing. *)
Lemma am_pm_pattern_needs_am_pm (s : string) :
  am_pm_free s -> search (nth 1 time_patterns (Str "")) s = None.
Proof.
  cbn [nth time_patterns].
  assert (M : forall s, am_pm_free s ->
                        match_here
                          (Seq (Group 1 hour_digits)
                             (Seq spaces (Group 2 am_pm))) s
                        = None).
  { intros t Q. unfold match_here. rewrite run_seq, run_group.
    unfold hour_digits. cbn [run].
    apply repeat_greedy_none with (Q := am_pm_free);
      [exact am_pm_free_tail | | exact Q].
    intros pos s' c Q'. unfold spaces. cbn [run].
    apply repeat_greedy_none with (Q := am_pm_free);
      [exact am_pm_free_tail | | exact Q'].
    intros pos'' s'' c'' Q''. destruct (am_pm_free_prefix _ Q'') as [A P].
    unfold am_pm. rewrite run_alt.
    now rewrite !run_str_mismatch by assumption. }
  induction s as [|a s IH]; intros Q; cbn [search]; rewrite (M _ Q);
    cbn [or_else]; [reflexivity|].
  apply IH. now apply am_pm_free_tail with a.
Qed.

Lemma has_char_append (ch : ascii) (a b : string) :
  has_char ch (a ++ b) = has_char ch a || has_char ch b.
Proof.
  induction a as [|c a IH]; cbn [append has_char]; [reflexivity|].
  now rewrite IH, orb_assoc.
Qed.

Lemma has_char_take (ch : ascii) (n : nat) (s : string) :
  has_char ch s = false -> has_char ch (take n s) = false.
Proof.
  revert n. induction s as [|c s IH]; intros [|n]; cbn [take has_char];
    try reflexivity.
  intros H%orb_false_iff. destruct H as [-> H]. now rewrite IH.
Qed.

Lemma contains_append_l (k a b : string) :
  contains k (a ++ b) = false -> contains k b = false.
Proof.
  intros H. destruct (contains k b) eqn:E; [|reflexivity].
  apply contains_iff in E as (pre & post & ->).
  rewrite <- H. symmetry. apply contains_iff. exists (a ++ pre), post.
  now rewrite append_assoc.
Qed.

End WithoutColon.

Section PlainPatterns.

Lemma time_patterns_in_order (s : string) (b : datetime) :
  apply_time_patterns time_patterns s b
  = match search (nth 0 time_patterns (Str "")) s with
    | Some m => apply_match m b
    | None =>
        match search (nth 1 time_patterns (Str "")) s with
        | Some m => apply_match m b
        | None =>
            match search (nth 2 time_patterns (Str "")) s with
            | Some m => apply_match m b
            | None => Ok b
            end
        end
    end.
Proof. reflexivity. Qed.

Lemma no_digit_after_spaces (ws t : string) :
  all_chars space ws = true -> not_starting_with digit t = true ->
  not_starting_with digit (ws ++ t) = true.
Proof.
  destruct ws as [|a ws]; cbn [append all_chars not_starting_with];
    [now intros _|].
  intros W%andb_true_iff _. destruct W as [W _].
  now rewrite (space_is_no_digit _ W).
Qed.

Variables pre hs ws rest : string.
Variable h : Z.
Hypothesis pre_free : digit_free pre = true.
Hypothesis hs_digits : all_chars digit hs = true.
Hypothesis hs_length : String.length hs = 1%nat \/ String.length hs = 2%nat.
Hypothesis ws_spaces : all_chars space ws = true.
Hypothesis hs_value : int (Some hs) = Ok h.

Lemma am_pm_pattern_reads (ap : string) (b : datetime) :
  ap = "am" \/ ap = "pm" ->
  colon_free (pre ++ hs ++ ws ++ ap ++ rest) ->
  apply_time_patterns time_patterns (pre ++ hs ++ ws ++ ap ++ rest) b
  = replace_hm b (to_24_hour h ap) 0.
Proof.
  intros A C. rewrite time_patterns_in_order.
  rewrite colon_pattern_needs_a_colon by exact C.
  cbn [nth time_patterns].
  rewrite search_skips_digit_free by exact pre_free.
  erewrite search_found.
  2:{ unfold match_here. rewrite run_seq.
      apply run_hour_group; [exact hs_digits | exact hs_length | |].
      { apply no_digit_after_spaces; [exact ws_spaces|].
        destruct A; subst; reflexivity. }
      rewrite run_seq.
      apply run_spaces; [exact ws_spaces | destruct A; subst; reflexivity |].
      apply run_group_am_pm; [exact A | reflexivity]. }
  match goal with
  | |- apply_match ?x b = _ =>
      assert (Hc : has_char ":" (whole x) = false);
      [|destruct (apply_match_plain x hs h b Hc eq_refl hs_value) as [_ P]]
  end.
  - cbn [whole]. apply has_char_take.
    unfold colon_free in C. rewrite has_char_append in C.
    now apply orb_false_iff in C.
  - apply P; [reflexivity | reflexivity | exact A].
Qed.

Lemma oclock_pattern_reads (q : string) (b : datetime) :
  q = "'" \/ q = "" ->
  colon_free (pre ++ hs ++ ws ++ "o" ++ q ++ "clock" ++ rest) ->
  am_pm_free (pre ++ hs ++ ws ++ "o" ++ q ++ "clock" ++ rest) ->
  apply_time_patterns time_patterns
    (pre ++ hs ++ ws ++ "o" ++ q ++ "clock" ++ rest) b
  = replace_hm b h 0.
Proof.
  intros A C F. rewrite time_patterns_in_order.
  rewrite colon_pattern_needs_a_colon by exact C.
  rewrite am_pm_pattern_needs_am_pm by exact F.
  cbn [nth time_patterns].
  rewrite search_skips_digit_free by exact pre_free.
  assert (Hc : forall n,
             has_char ":"
               (take n (hs ++ ws ++ "o" ++ q ++ "clock" ++ rest)) = false).
  { intros n. apply has_char_take.
    unfold colon_free in C. rewrite has_char_append in C.
    now apply orb_false_iff in C. }
  destruct A as [-> | ->].
  - erewrite search_found.
    2:{ unfold match_here. rewrite run_seq.
        apply run_hour_group; [exact hs_digits | exact hs_length | |].
        { apply no_digit_after_spaces; [exact ws_spaces | reflexivity]. }
        rewrite run_seq.
        apply run_spaces; [exact ws_spaces | reflexivity |].
        rewrite run_seq, run_str, run_seq, run_opt.
        rewrite run_str. cbn beta. rewrite run_str. reflexivity. }
    match goal with
    | |- apply_match ?x b = _ =>
        apply (proj1 (apply_match_plain x hs h b (Hc _) eq_refl hs_value))
    end.
    reflexivity.
  - erewrite search_found.
    2:{ unfold match_here. rewrite run_seq.
        apply run_hour_group; [exact hs_digits | exact hs_length | |].
        { apply no_digit_after_spaces; [exact ws_spaces | reflexivity]. }
        rewrite run_seq.
        apply run_spaces; [exact ws_spaces | reflexivity |].
        rewrite run_seq, run_str, run_seq, run_opt.
        change ("" ++ "clock" ++ rest) with ("clock" ++ rest).
        rewrite run_str_mismatch by reflexivity. cbn [or_else].
        rewrite run_str. reflexivity. }
    match goal with
    | |- apply_match ?x b = _ =>
        apply (proj1 (apply_match_plain x hs h b (Hc _) eq_refl hs_value))
    end.
    reflexivity.
Qed.

End PlainPatterns.

(** ** Clock times in a message *)

Lemma parse_by_clock (now : datetime) (user_message : string) (h m : Z) :
  (forall b, apply_time_patterns time_patterns (lower user_message) b
             = replace_hm b h m) ->
  no_time_description (lower user_message) ->
  parse_date_time_value now user_message
  = (b <- resolve_base_date now (lower user_message) ;; replace_hm b h m).
Proof.
  intros E (M & A & V). unfold parse_date_time_value.
  destruct (resolve_base_date now (lower user_message)) as [b|e];
    cbn [bind]; [|reflexivity].
  rewrite E. destruct (replace_hm b h m) as [b'|e]; cbn [bind]; [|reflexivity].
  unfold apply_time_descriptions. now rewrite M, A, V.
Qed.

Lemma replace_hm_out_of_range (b : datetime) (h m : Z) :
  23 < h \/ 59 < m -> replace_hm b h m = Raise ValueError.
Proof.
  intros H. unfold replace_hm, replace.
  replace (in_range 0 23 h && in_range 0 59 m) with false; [reflexivity|].
  symmetry. apply andb_false_iff. unfold in_range.
  destruct H; [left | right]; apply andb_false_iff; right; lia.
Qed.

(** X11: a clock time written H:MM or HH:MM, then optional white space,
    then am or pm, and standing after text without digits, is read in
    12-hour form: pm adds 12 to every hour but 12, am turns 12 into 0
    and leaves the others.  Without a time description in the message
    the result is that hour and minute on the base date, and a
    [ValueError] when the hour so obtained is above 23 or the minute
    above 59. *)
Theorem X11_colon_time_with_am_pm
    (now : datetime) (user_message pre hs ms ws ap rest : string) (h m : Z) :
  lower user_message = pre ++ hs ++ ":" ++ ms ++ ws ++ ap ++ rest ->
  digit_free pre = true -> hour_text hs h -> minute_text ms m ->
  all_chars space ws = true -> ap = "am" \/ ap = "pm" ->
  no_time_description (lower user_message) ->
  parse_date_time_value now user_message
  = (b <- resolve_base_date now (lower user_message) ;;
     replace_hm b (to_24_hour h ap) m).
Proof.
  intros E P (Hd & Hl & Hv) (Md & Ml & Mv) W A N.
  apply parse_by_clock; [|exact N]. intros b. rewrite E.
  now apply colon_pattern_am_pm.
Qed.

Lemma X11_witness :
  parse_date_time_value monday_midnight "Tomorrow at 7:05 PM please"
  = (b <- resolve_base_date monday_midnight
            (lower "Tomorrow at 7:05 PM please") ;;
     replace_hm b (to_24_hour 7 "pm") 5).
Proof.
  apply (X11_colon_time_with_am_pm monday_midnight
           "Tomorrow at 7:05 PM please" "tomorrow at " "7" "05" " " "pm"
           " please" 7 5).
  - reflexivity.
  - reflexivity.
  - repeat split; auto.
  - repeat split; auto.
  - reflexivity.
  - right. reflexivity.
  - repeat split; reflexivity.
Defined.

(** X12: a clock time written H:MM or HH:MM with no am or pm after it
    (what follows, after any white space, does not start with "am" or
    "pm"), standing after text without digits, is taken as it is.
    Without a time description in the message the result is hour H and
    minute MM on the base date, and a [ValueError] when H is above 23 or
    MM above 59. *)
Theorem X12_colon_time_in_24_hour_form
    (now : datetime) (user_message pre hs ms ws rest : string) (h m : Z) :
  lower user_message = pre ++ hs ++ ":" ++ ms ++ ws ++ rest ->
  digit_free pre = true -> hour_text hs h -> minute_text ms m ->
  all_chars space ws = true -> not_starting_with space rest = true ->
  String.prefix "am" rest = false -> String.prefix "pm" rest = false ->
  no_time_description (lower user_message) ->
  parse_date_time_value now user_message
  = (b <- resolve_base_date now (lower user_message) ;; replace_hm b h m).
Proof.
  intros E P (Hd & Hl & Hv) (Md & Ml & Mv) W T A1 A2 N.
  apply parse_by_clock; [|exact N]. intros b. rewrite E.
  now apply colon_pattern_24_hour.
Qed.

Lemma X12_witness :
  parse_date_time_value monday_midnight "Friday, 14:30 would suit me"
  = (b <- resolve_base_date monday_midnight
            (lower "Friday, 14:30 would suit me") ;;
     replace_hm b 14 30).
Proof.
  apply (X12_colon_time_in_24_hour_form monday_midnight
           "Friday, 14:30 would suit me" "friday, " "14" "30" " "
           "would suit me" 14 30).
  - reflexivity.
  - reflexivity.
  - repeat split; auto.
  - repeat split; auto.
  - reflexivity.
  - reflexivity.
  - reflexivity.
  - reflexivity.
  - repeat split; reflexivity.
Defined.

(** X13: a message whose first digits form a time H:MM or HH:MM without
    am or pm, with H above 23 or MM above 59, never yields an
    appointment: the extractor returns no timestamp at any reference
    time, whatever else the message says, and the pipeline returns
    [None] and leaves the table as it was. *)
Theorem X13_out_of_range_clock_blocks_creation
    (now : datetime) (user_message bot_response : string) (user_id : Z)
    (w : world) (pre hs ms ws rest : string) (h m : Z) :
  lower user_message = pre ++ hs ++ ":" ++ ms ++ ws ++ rest ->
  digit_free pre = true -> hour_text hs h -> minute_text ms m ->
  all_chars space ws = true -> not_starting_with space rest = true ->
  String.prefix "am" rest = false -> String.prefix "pm" rest = false ->
  23 < h \/ 59 < m ->
  (forall s, _parse_date_time now user_message <> Ok s)
  /\ fst (_extract_appointment_data now user_message bot_response user_id w)
     = None
  /\ appointments
       (snd (_extract_appointment_data now user_message bot_response user_id w))
     = appointments w.
Proof.
  intros E P (Hd & Hl & Hv) (Md & Ml & Mv) W T A1 A2 R.
  assert (F : forall s, _parse_date_time now user_message <> Ok s).
  { intros s H. unfold _parse_date_time in H.
    apply bind_ok in H as (d & H & _).
    apply parse_date_time_value_inv in H as (b & b' & _ & H & _).
    rewrite E in H.
    rewrite (colon_pattern_24_hour pre hs ms ws rest h m) in H
      by assumption.
    now rewrite replace_hm_out_of_range in H. }
  split; [exact F|].
  destruct (extract_cases now user_message user_id w bot_response)
    as [(_ & X)|[(_ & e & _ & X)
                |[(_ & a & e & _ & _ & X)|(_ & _ & a & B & _)]]];
    try (cbv zeta in X; rewrite X; split; reflexivity).
  exfalso. unfold parse_appointment_details_body in B.
  destruct (if any_in _ _ then _ else _) as [type label].
  apply bind_ok in B as (date & B & _). exact (F _ B).
Qed.

Lemma X13_witness :
  (forall s, _parse_date_time monday_midnight "Book me in at 9:75" <> Ok s)
  /\ fst (_extract_appointment_data monday_midnight "Book me in at 9:75"
            "I have booked it" 7 empty_db)
     = None
  /\ appointments
       (snd (_extract_appointment_data monday_midnight "Book me in at 9:75"
               "I have booked it" 7 empty_db))
     = appointments empty_db.
Proof.
  apply (X13_out_of_range_clock_blocks_creation monday_midnight
           "Book me in at 9:75" "I have booked it" 7 empty_db
           "book me in at " "9" "75" "" "" 9 75).
  - reflexivity.
  - reflexivity.
  - repeat split; auto.
  - repeat split; auto.
  - reflexivity.
  - reflexivity.
  - reflexivity.
  - reflexivity.
  - right. lia.
Defined.

(** X14: in a message without a colon, an hour of one or two digits
    followed, after optional white space, by am or pm, and standing
    after text without digits, is read in 12-hour form with minute 0.
    Without a time description in the message the result is that hour
    at minute 0 on the base date, and a [ValueError] when the hour so
    obtained is above 23. *)
Theorem X14_hour_with_am_pm
    (now : datetime) (user_message pre hs ws ap rest : string) (h : Z) :
  lower user_message = pre ++ hs ++ ws ++ ap ++ rest ->
  digit_free pre = true -> hour_text hs h ->
  all_chars space ws = true -> ap = "am" \/ ap = "pm" ->
  colon_free (lower user_message) ->
  no_time_description (lower user_message) ->
  parse_date_time_value now user_message
  = (b <- resolve_base_date now (lower user_message) ;;
     replace_hm b (to_24_hour h ap) 0).
Proof.
  intros E P (Hd & Hl & Hv) W A C N.
  apply parse_by_clock; [|exact N]. intros b. rewrite E in C |- *.
  now apply am_pm_pattern_reads.
Qed.

Lemma X14_witness :
  parse_date_time_value monday_midnight "Lunch on Friday, 12 AM or 1pm"
  = (b <- resolve_base_date monday_midnight
            (lower "Lunch on Friday, 12 AM or 1pm") ;;
     replace_hm b (to_24_hour 12 "am") 0).
Proof.
  apply (X14_hour_with_am_pm monday_midnight
           "Lunch on Friday, 12 AM or 1pm" "lunch on friday, " "12" " " "am"
           " or 1pm" 12).
  - reflexivity.
  - reflexivity.
  - repeat split; auto.
  - reflexivity.
  - left. reflexivity.
  - reflexivity.
  - repeat split; reflexivity.
Defined.

(** X15: in a message without a colon and without "am" or "pm"
    anywhere, an hour of one or two digits followed, after optional
    white space, by "o'clock" or "oclock", and standing after text
    without digits, is taken as it is, with minute 0: no 12-hour
    conversion applies.  Without a time description in the message the
    result is that hour on the base date, and a [ValueError] when it is
    above 23. *)
Theorem X15_hour_o_clock
    (now : datetime) (user_message pre hs ws q rest : string) (h : Z) :
  lower user_message = pre ++ hs ++ ws ++ "o" ++ q ++ "clock" ++ rest ->
  digit_free pre = true -> hour_text hs h ->
  all_chars space ws = true -> q = "'" \/ q = "" ->
  colon_free (lower user_message) -> am_pm_free (lower user_message) ->
  no_time_description (lower user_message) ->
  parse_date_time_value now user_message
  = (b <- resolve_base_date now (lower user_message) ;; replace_hm b h 0).
Proof.
  intros E P (Hd & Hl & Hv) W A C F N.
  apply parse_by_clock; [|exact N]. intros b. rewrite E in C, F |- *.
  now apply oclock_pattern_reads.
Qed.

Lemma X15_witness :
  parse_date_time_value monday_midnight "Tuesday, 5 o'clock sharp"
  = (b <- resolve_base_date monday_midnight
            (lower "Tuesday, 5 o'clock sharp") ;;
     replace_hm b 5 0).
Proof.
  apply (X15_hour_o_clock monday_midnight
           "Tuesday, 5 o'clock sharp" "tuesday, " "5" " " "'" " sharp" 5).
  - reflexivity.
  - reflexivity.
  - repeat split; auto.
  - reflexivity.
  - left. reflexivity.
  - reflexivity.
  - split; reflexivity.
  - repeat split; reflexivity.
Defined.

(** ** The reply of [process_message] *)

(** X16: the dictionary [process_message] returns has exactly the keys
    'message' and 'metadata', whether the language model answered or
    raised; 'appointment_created' and 'appointment_id' are never at its
    top level, where a lookup gives [None], but under 'metadata'.
    There the flag tells the truth about the table: when it is true, the
    metadata carry the draft and its non-zero id, and the table is the
    old table followed by the row of that draft; when it is false or
    absent, the table is unchanged, unless the insert returned id 0. *)
Theorem X16_metadata_flag_matches_the_table
    (llm : language_model) (now stamp : datetime) (message : string)
    (user_id : Z) (user_info : dict) (conversation_history : list turn)
    (w : world) :
  let result :=
    process_message llm now stamp message user_id user_info
      conversation_history w in
  exists text metadata,
    fst result = [("message", VStr text); ("metadata", VDict metadata)]
    /\ lookup "appointment_created" (fst result) = None
    /\ lookup "appointment_id" (fst result) = None
    /\ (lookup "appointment_created" metadata = Some (VBool true) ->
        exists i a,
          i <> 0 /\ id a = Some i /\ description a = message
          /\ lookup "appointment_id" metadata = Some (VInt i)
          /\ lookup "appointment_data" metadata
             = Some (VDict (appointment_dict a))
          /\ appointments (snd result)
             = (appointments w ++ [row_of i user_id a])%list)
    /\ (lookup "appointment_created" metadata <> Some (VBool true) ->
        appointments (snd result) = appointments w \/ next_id w = 0).
Proof.
  cbv zeta. unfold process_message.
  destruct (llm (to_chat_history conversation_history) message)
    as [response_text|e text].
  - destruct (extract_cases now message user_id w response_text)
      as [(_ & E)|[(_ & e & _ & E)
                  |[(_ & a & e & _ & _ & E)|(S & U & a & P & _ & E)]]];
      cbv zeta in E; rewrite E.
    + eexists. eexists. split; [reflexivity|].
      split; [reflexivity|]. split; [reflexivity|].
      split; [discriminate|]. intros _. now left.
    + eexists. eexists. split; [reflexivity|].
      split; [reflexivity|]. split; [reflexivity|].
      split; [discriminate|]. intros _. now left.
    + eexists. eexists. split; [reflexivity|].
      split; [reflexivity|]. split; [reflexivity|].
      split; [discriminate|]. intros _. now left.
    + destruct (next_id w =? 0) eqn:N.
      * eexists. eexists. split; [reflexivity|].
        split; [reflexivity|]. split; [reflexivity|].
        split; [discriminate|]. intros _. right. now apply Z.eqb_eq.
      * eexists. eexists. split; [reflexivity|].
        split; [reflexivity|]. split; [reflexivity|].
        split; [|intros F; now elim F].
        intros _. exists (next_id w), (with_id (next_id w) a).
        apply Z.eqb_neq in N. split; [exact N|]. split; [reflexivity|].
        split.
        { unfold parse_appointment_details_body in P.
          destruct (if any_in _ _ then _ else _) as [type label].
          apply bind_ok in P as (date & _ & P). now injection P as <-. }
        repeat split; reflexivity.
  - eexists. eexists. split; [reflexivity|].
    split; [reflexivity|]. split; [reflexivity|].
    split; [discriminate|]. intros _. now left.
Qed.

(** ** A colon time after other digits *)

Section ColonFirst.

Lemma prefix_other_char (a : ascii) (s : string) :
  Ascii.eqb ":" a = false -> String.prefix ":" (String a s) = false.
Proof.
  intros H. cbn [String.prefix].
  destruct (ascii_dec ":" a) as [<-|_]; [discriminate | reflexivity].
Qed.

(** As [repeat_greedy_none], with the invariant kept only along the
    characters the repetition can take. *)
Lemma repeat_greedy_none_along {R : Type} (Q : string -> Prop)
    (p : ascii -> bool) (k : cont R) :
  (forall a s, Q (String a s) -> p a = true -> Q s) ->
  (forall pos s c, Q s -> k pos s c = None) ->
  forall s lo hi pos c, Q s -> repeat_greedy p lo hi pos s c k = None.
Proof.
  intros step K. induction s as [|a s IH]; intros lo hi pos c q;
    cbn [repeat_greedy].
  - destruct lo; [now apply K | reflexivity].
  - assert (E : match lo with O => k pos (String a s) c | S _ => None end = None)
      by (destruct lo; [now apply K | reflexivity]).
    rewrite E. destruct (p a) eqn:Pa; cbn [andb]; [|reflexivity].
    destruct (may_repeat hi); [|reflexivity].
    rewrite IH by (now apply step with a). reflexivity.
Qed.

Variable t : string.

(** A tail of the message that starts inside the stretch before the
    clock time. *)
Let inside (s : string) : Prop :=
  exists b p, s = String b p ++ t /\ colon_free (String b p)
              /\ not_ending_with digit (String b p) = true.

Lemma inside_step (a : ascii) (s : string) :
  inside (String a s) -> digit a = true -> inside s.
Proof.
  intros (b & p & E & C & N) D. cbn [append] in E. injection E as <- ->.
  destruct p as [|b' p]; [cbn in N; rewrite D in N; discriminate|].
  exists b', p. split; [reflexivity|]. split.
  - now apply colon_free_tail with a.
  - exact N.
Qed.

Lemma inside_tail (a : ascii) (p : string) :
  colon_free (String a p) -> not_ending_with digit (String a p) = true ->
  p = EmptyString \/ exists b p', p = String b p' /\ inside (p ++ t).
Proof.
  intros C N. destruct p as [|b p']; [now left|]. right.
  exists b, p'. split; [reflexivity|]. exists b, p'.
  split; [reflexivity|]. split; [now apply colon_free_tail with a | exact N].
Qed.

(** Inside a stretch without colon that does not end in a digit, the
    colon pattern cannot start. *)
Lemma colon_pattern_cannot_start (s : string) :
  inside s -> match_here (nth 0 time_patterns (Str "")) s = None.
Proof.
  intros I. cbn [nth time_patterns]. unfold match_here.
  rewrite run_seq, run_group. unfold hour_digits. cbn [run].
  apply repeat_greedy_none_along with (Q := inside);
    [exact inside_step | | exact I].
  intros pos s' c (b & p & -> & C & _). unfold colon.
  apply run_str_mismatch. cbn [append]. apply prefix_other_char.
  unfold colon_free in C. cbn [has_char] in C. now apply orb_false_iff in C.
Qed.

Lemma search_skips_colon_free (pre : string) :
  colon_free pre -> not_ending_with digit pre = true ->
  search (nth 0 time_patterns (Str "")) (pre ++ t)
  = search (nth 0 time_patterns (Str "")) t.
Proof.
  induction pre as [|a pre IH]; intros C N; [reflexivity|].
  cbn [append search].
  rewrite (colon_pattern_cannot_start (String a (pre ++ t))).
  - cbn [or_else]. destruct (inside_tail a pre C N) as [-> | (b & p' & -> & _)].
    + reflexivity.
    + apply IH; [now apply colon_free_tail with a | exact N].
  - exists a, pre. auto.
Qed.

End ColonFirst.

Lemma colon_time_found (hs ms ws rest : string) (h m : Z) :
  hour_text hs h -> minute_text ms m ->
  all_chars space ws = true -> not_starting_with space rest = true ->
  String.prefix "am" rest = false -> String.prefix "pm" rest = false ->
  exists x,
    search (nth 0 time_patterns (Str "")) (hs ++ ":" ++ ms ++ ws ++ rest)
    = Some x
    /\ forall b, apply_match x b = replace_hm b h m.
Proof.
  intros (Hd & Hl & Hv) (Md & Ml & Mv) W T A P.
  cbn [nth time_patterns]. eexists. split.
  - apply search_found. unfold match_here. rewrite run_seq.
    apply run_hour_group; [exact Hd | exact Hl | reflexivity |].
    rewrite run_seq. unfold colon at 1. rewrite run_str.
    rewrite run_seq. rewrite run_minute_group by assumption.
    rewrite run_seq.
    apply run_spaces; [exact W | exact T |].
    rewrite run_opt.
    rewrite run_group_am_pm_absent by assumption. reflexivity.
  - intros b.
    rewrite (apply_match_colon _ hs ms None h m b);
      try reflexivity; try assumption.
    cbn [whole]. apply has_colon_after. cbn [String.length]. lia.
Qed.

(** X17: the colon pattern is tried on the whole message before the
    other two, so a time H:MM or HH:MM (without am/pm after it) wins
    over any clock time written without a colon earlier in the message,
    such as "3pm": it is enough that the text before it has no colon and
    does not end in a digit.  Without a time description in the message
    the result is hour H, minute MM on the base date. *)
Theorem X17_colon_time_beats_earlier_times
    (now : datetime) (user_message pre hs ms ws rest : string) (h m : Z) :
  lower user_message = pre ++ hs ++ ":" ++ ms ++ ws ++ rest ->
  colon_free pre -> not_ending_with digit pre = true ->
  hour_text hs h -> minute_text ms m ->
  all_chars space ws = true -> not_starting_with space rest = true ->
  String.prefix "am" rest = false -> String.prefix "pm" rest = false ->
  no_time_description (lower user_message) ->
  parse_date_time_value now user_message
  = (b <- resolve_base_date now (lower user_message) ;; replace_hm b h m).
Proof.
  intros E C N Hh Hm W T A P D.
  apply parse_by_clock; [|exact D]. intros b. rewrite E.
  destruct (colon_time_found hs ms ws rest h m Hh Hm W T A P)
    as (x & F & M).
  rewrite time_patterns_in_order.
  rewrite search_skips_colon_free by assumption.
  rewrite F. apply M.
Qed.

Lemma X17_witness :
  parse_date_time_value monday_midnight "Either 3pm or 16:30 on Friday"
  = (b <- resolve_base_date monday_midnight
            (lower "Either 3pm or 16:30 on Friday") ;;
     replace_hm b 16 30).
Proof.
  apply (X17_colon_time_beats_earlier_times monday_midnight
           "Either 3pm or 16:30 on Friday" "either 3pm or " "16" "30" " "
           "on friday" 16 30).
  - reflexivity.
  - reflexivity.
  - reflexivity.
  - repeat split; auto.
  - repeat split; auto.
  - reflexivity.
  - reflexivity.
  - reflexivity.
  - reflexivity.
  - repeat split; reflexivity.
Defined.

(** ** Repeating a message *)

(** X18: nothing is checked against the rows already stored.  When a
    call has returned a draft, the same call made again on the resulting
    state inserts a second row with the same user, title, description,
    date, duration and type, under the id the second insert returns. *)
Theorem X18_repeated_message_inserts_a_duplicate
    (now : datetime) (user_message bot_response : string) (user_id : Z)
    (w w1 : world) (a : appointment_data) :
  _extract_appointment_data now user_message bot_response user_id w
  = (Some a, w1) ->
  appointments
    (snd (_extract_appointment_data now user_message bot_response user_id w1))
  = (appointments w
     ++ [row_of (next_id w) user_id a; row_of (next_id w1) user_id a])%list.
Proof.
  intros H.
  destruct (extract_cases now user_message user_id w bot_response)
    as [(_ & E)|[(_ & e & _ & E)
                |[(_ & a0 & e & _ & _ & E)|(S & U & a0 & P & F & E)]]];
    cbv zeta in E; rewrite E in H; try discriminate.
  destruct (next_id w =? 0) eqn:N; [discriminate|].
  injection H as <- <-.
  erewrite extract_creates; [|exact S | exact P | exact F].
  cbn [snd appointments next_id]. rewrite <- app_assoc. reflexivity.
Qed.

Lemma X18_witness :
  appointments
    (snd (_extract_appointment_data monday_midnight "Book a visit tomorrow" ""
            7
            (snd (_extract_appointment_data monday_midnight
                    "Book a visit tomorrow" "" 7 empty_db))))
  = (appointments empty_db
     ++ [row_of (next_id empty_db) 7
           (with_id 1
              {| title := "Appointment"; description := "Book a visit tomorrow";
                 appointment_type := "general"; duration_minutes := 60;
                 location := None; notes := None;
                 appointment_date := "2024-01-02T10:00:00"; id := None |});
         row_of 2 7
           (with_id 1
              {| title := "Appointment"; description := "Book a visit tomorrow";
                 appointment_type := "general"; duration_minutes := 60;
                 location := None; notes := None;
                 appointment_date := "2024-01-02T10:00:00";
                 id := None |})])%list.
Proof.
  apply (X18_repeated_message_inserts_a_duplicate monday_midnight
           "Book a visit tomorrow" "" 7 empty_db).
  vm_compute. reflexivity.
Defined.
